(** * adpytools: the micro http dispatcher and the debug-word helper

    A shallow embedding of [src/adpytools/microhttpd.py] (class [Dispatch],
    class [MyHTTPRequestHandler]) and of [src/adpytools/debugging.py]
    ([Debug], [DebugSet], [DebugUnset]), followed by the properties of the
    dispatcher's matching loop, of the response assembly and of the debug
    words.

    Python 2 [str] values are byte strings: they are modelled by [string]
    (lists of 8-bit [ascii]).  Python dictionaries are [gmap]s. *)

From Stdlib Require Import String Ascii ZArith Lia List Bool DecimalString.
From stdpp Require Import base option gmap strings list.

Open Scope string_scope.

(** ** The Python string methods the two modules use *)

Module Py.

(** [s.rsplit(sep, 1)] and [s.rpartition(sep)] both cut [s] at the LAST
    occurrence of [sep]; [cut_last] finds that cut: the text before it and
    the text after it, or [None] when [sep] does not occur.  Every call
    site passes a one-character separator. *)
Fixpoint cut_last (sep : ascii) (s : string) : option (string * string) :=
  match s with
  | EmptyString => None
  | String a s' =>
      match cut_last sep s' with
      | Some (l, r) => Some (String a l, r)
      | None => if Ascii.eqb a sep then Some (EmptyString, s') else None
      end
  end.

(** [s.rsplit(sep, 1)]: one split, from the right. *)
Definition rsplit1 (sep : ascii) (s : string) : list string :=
  match cut_last sep s with
  | Some (l, r) => [l; r]
  | None => [s]
  end.

(** [s.rpartition(sep)]: [(head, sep, tail)], or [('', '', s)] when [sep]
    does not occur. *)
Definition rpartition (sep : ascii) (s : string) : string * string * string :=
  match cut_last sep s with
  | Some (l, r) => (l, String sep EmptyString, r)
  | None => (EmptyString, EmptyString, s)
  end.

(** [s.split(sep)]: cut at every occurrence; never the empty list. *)
Fixpoint split (sep : ascii) (s : string) : list string :=
  match s with
  | EmptyString => [EmptyString]
  | String a s' =>
      if Ascii.eqb a sep then EmptyString :: split sep s'
      else match split sep s' with
           | x :: xs => String a x :: xs
           | [] => [String a EmptyString]
           end
  end.

(** [l[0]] on a list that the caller knows to be non-empty ([rsplit] and
    [split] never return the empty list). *)
Definition item0 (l : list string) : string := List.hd EmptyString l.

(** [l[-1:][0]]: the last element. *)
Definition last_item (l : list string) : string := item0 (List.skipn (List.length l - 1) l).

(** [s[n:]] for [0 <= n]: the slice is empty when [n] is past the end. *)
Fixpoint slice_from (n : nat) (s : string) : string :=
  match n, s with
  | O, _ => s
  | S n', EmptyString => EmptyString
  | S n', String _ s' => slice_from n' s'
  end.

(** [c in s] for a one-character [c]. *)
Fixpoint contains (c : ascii) (s : string) : bool :=
  match s with
  | EmptyString => false
  | String a s' => Ascii.eqb a c || contains c s'
  end.

End Py.

(** [s.split()]: cut at runs of whitespace, no empty word in the result. *)
Module PyWords.

Definition is_space (a : ascii) : bool :=
  match nat_of_ascii a with
  | 9 | 10 | 11 | 12 | 13 | 32 => true
  | _ => false
  end.

Fixpoint pieces (s : string) : list string :=
  match s with
  | EmptyString => [EmptyString]
  | String a s' =>
      if is_space a then EmptyString :: pieces s'
      else match pieces s' with
           | w :: ws => String a w :: ws
           | [] => [String a EmptyString]
           end
  end.

Definition split_ws (s : string) : list string :=
  List.filter (fun w => negb (String.eqb w EmptyString)) (pieces s).

End PyWords.

(** ** Effects: mutable state, exceptions, and loops that may not return

    A Python method that reads and writes an object is a function from the
    object's state to an outcome and the state it leaves.  An outcome is a
    value, a raised exception, or [Timeout]: the fuel given to a [while]
    loop ran out before the loop returned.  The state is kept in all three
    cases, as Python keeps the mutations made before an exception. *)

Module Eff.

Inductive exn : Type :=
| KeyError (key : string).

Inductive res (A : Type) : Type :=
| Val (a : A)
| Raised (e : exn)
| Timeout.
Arguments Val {A} a.
Arguments Raised {A} e.
Arguments Timeout {A}.

Definition M (S A : Type) : Type := S -> res A * S.

Definition ret {S A : Type} (a : A) : M S A := fun s => (Val a, s).

Definition bnd {S A B : Type} (m : M S A) (k : A -> M S B) : M S B :=
  fun s =>
    match m s with
    | (Val a, s') => k a s'
    | (Raised e, s') => (Raised e, s')
    | (Timeout, s') => (Timeout, s')
    end.

Definition raise {S A : Type} (e : exn) : M S A := fun s => (Raised e, s).

Definition timeout {S A : Type} : M S A := fun s => (Timeout, s).

Definition get {S : Type} : M S S := fun s => (Val s, s).

Definition put {S : Type} (s' : S) : M S unit := fun _ => (Val tt, s').

(** [try: body / except: handler] with a bare [except]. *)
Definition try_except {S A : Type} (body : M S A) (handler : M S A) : M S A :=
  fun s =>
    match body s with
    | (Raised _, s') => handler s'
    | other => other
    end.

(** Run a computation on a component of a larger state. *)
Definition zoom {S T A : Type} (proj : T -> S) (upd : S -> T -> T)
    (m : M S A) : M T A :=
  fun t =>
    match m (proj t) with
    | (o, s') => (o, upd s' t)
    end.

End Eff.

Import Eff.

Notation "x <- m ;; k" := (Eff.bnd m (fun x => k))
  (at level 100, m at next level, right associativity).
Notation "m ;;; k" := (Eff.bnd m (fun _ => k))
  (at level 100, right associativity).

(** ** debugging.py: the set of debug words *)

Module debugging.

(** The values the global [__debug] takes: what [os.getenv] returned
    ([None] or a string), later [True] or [False]. *)
Inductive pyflag : Type :=
| FNone
| FStr (s : string)
| FBool (b : bool).

(** The module's globals.  [__vars] is a dictionary whose keys are the debug
    words (each maps to itself); the key [" "] marks that DEBUG is set. *)
Record globals : Type := Globals {
  __vars : gmap string string;
  __debug : pyflag
}.

(** Truth value of [__debug] in [if __debug:]. *)
Definition truthy (f : pyflag) : bool :=
  match f with
  | FNone => false
  | FStr s => negb (String.eqb s EmptyString)
  | FBool b => b
  end.

(** Lines 95-111: the state after the module is imported, from the value of
    the environment variable DEBUG. *)
Definition getenv_flag (env_DEBUG : option string) : pyflag :=
  match env_DEBUG with
  | None => FNone
  | Some s => FStr s
  end.

Definition module_init (env_DEBUG : option string) : globals :=
  let dbg := getenv_flag env_DEBUG in
  if truthy dbg then
    {| __vars := List.fold_left (fun vars v => <[v := v]> vars)
                   (PyWords.split_ws (default EmptyString env_DEBUG))
                   (<[" " := " "]> ∅);
       __debug := dbg |}
  else {| __vars := ∅; __debug := dbg |}.

(** An optional argument [name=" "]. *)
Definition name_arg (name : option string) : string := default " " name.

(** [Debug(name=" ")]: [name in __vars]. *)
Definition Debug (name : option string) : M globals bool :=
  g <- get ;;
  ret (bool_decide (is_Some (__vars g !! name_arg name))).

(** [DebugSet(name=" ")]. *)
Definition DebugSet (name : option string) : M globals bool :=
  g <- get ;;
  put {| __vars := __vars g; __debug := FBool true |} ;;;
  g <- get ;;
  put {| __vars := <[name_arg name := name_arg name]> (__vars g); __debug := __debug g |} ;;;
  ret true.

(** [del __vars[name]]: raises [KeyError] when the key is absent. *)
Definition del_vars (name : string) : M globals unit :=
  g <- get ;;
  match __vars g !! name with
  | Some _ => put {| __vars := delete name (__vars g); __debug := __debug g |}
  | None => raise (KeyError name)
  end.

(** [DebugUnset(name=" ")]; it returns [None]. *)
Definition DebugUnset (name : option string) : M globals unit :=
  if String.eqb (name_arg name) " " then
    g <- get ;;
    put {| __vars := __vars g; __debug := FBool false |} ;;;
    g <- get ;;
    put {| __vars := ∅; __debug := __debug g |} ;;;
    ret tt
  else
    try_except (del_vars (name_arg name)) (ret tt) ;;;
    ret tt.

(** A client of the module: a sequence of calls. *)
Inductive cmd : Type :=
| CallDebug (name : option string)
| CallDebugSet (name : option string)
| CallDebugUnset (name : option string).

Definition state_after {A : Type} (m : M globals A) (g : globals) : globals := snd (m g).

Definition run_cmd (c : cmd) (g : globals) : globals :=
  match c with
  | CallDebug n => state_after (Debug n) g
  | CallDebugSet n => state_after (DebugSet n) g
  | CallDebugUnset n => state_after (DebugUnset n) g
  end.

Definition run_cmds (cs : list cmd) (g : globals) : globals :=
  List.fold_left (fun g c => run_cmd c g) cs g.

(** The calls that can make [Debug(w)] false: [DebugUnset(w)] and the
    [DebugUnset()] that clears every word. *)
Definition unsets (w : string) (c : cmd) : bool :=
  match c with
  | CallDebugUnset n => String.eqb (name_arg n) w || String.eqb (name_arg n) " "
  | _ => false
  end.

(** The call that can make [Debug(w)] true: [DebugSet(w)]. *)
Definition sets (w : string) (c : cmd) : bool :=
  match c with
  | CallDebugSet n => String.eqb (name_arg n) w
  | _ => false
  end.

Definition is_set (c : cmd) : bool :=
  match c with
  | CallDebugSet _ => true
  | _ => false
  end.

End debugging.

(** ** microhttpd.py: class Dispatch *)

Module microhttpd.

(** The [note] given at bind time: [None] or a string. *)
Definition note_t : Type := option string.

(** A status code as a Python object.  [do_all] tests
    [r['c'] is httplib.NOT_FOUND], an identity test: [NOT_FOUND] is the
    object the constant [httplib.NOT_FOUND] names, [Int z] any other int
    object (an int literal 404 in a handler is [Int 404], another object). *)
Inductive status : Type :=
| NOT_FOUND
| Int (z : Z).

Definition status_value (c : status) : Z :=
  match c with
  | NOT_FOUND => 404
  | Int z => z
  end.

Inductive header_value : Type :=
| HStr (s : string)
| HInt (n : Z).

(** The dictionary a handler returns.  Each key is optional: [resp_c = None]
    is a dictionary without ['c']; for ['r'] and ['h'], [None] is an absent
    key or the value [None] (after [r.update] the two read the same). *)
Record response : Type := Response {
  resp_r : option string;
  resp_c : option status;
  resp_h : option (list (string * header_value))
}.

(** A bound function, called with keywords [type], [match], [ext], [rest],
    [note].  Handlers are taken to be functions of their arguments. *)
Definition handler : Type := string -> string -> string -> string -> note_t -> response.

(** [repr] of a Python 2 [str]: single quotes, or double quotes when the
    string holds a single quote and no double quote; the quote and the
    backslash escaped, tab, newline and return by letter, every other byte
    outside the printable range as [\xNN]. *)
Definition dquote : ascii := ascii_of_nat 34.

Definition hex_digit (n : nat) : ascii :=
  match n with
  | 0 => "0" | 1 => "1" | 2 => "2" | 3 => "3" | 4 => "4" | 5 => "5"
  | 6 => "6" | 7 => "7" | 8 => "8" | 9 => "9" | 10 => "a" | 11 => "b"
  | 12 => "c" | 13 => "d" | 14 => "e" | _ => "f"
  end%char.

Definition repr_char (quote a : ascii) : string :=
  let n := nat_of_ascii a in
  if Ascii.eqb a quote || Ascii.eqb a "\"%char then String "\"%char (String a EmptyString)
  else if Nat.eqb n 9 then "\t"
  else if Nat.eqb n 10 then "\n"
  else if Nat.eqb n 13 then "\r"
  else if Nat.ltb n 32 || Nat.leb 127 n then
    String "\"%char (String "x"%char
      (String (hex_digit (n / 16)) (String (hex_digit (n mod 16)) EmptyString)))
  else String a EmptyString.

Fixpoint repr_chars (quote : ascii) (s : string) : string :=
  match s with
  | EmptyString => EmptyString
  | String a s' => repr_char quote a +:+ repr_chars quote s'
  end.

Definition repr_str (s : string) : string :=
  let quote := if Py.contains "'" s && negb (Py.contains dquote s)
               then dquote else "'"%char in
  String quote (repr_chars quote s +:+ String quote EmptyString).

(** [repr(note)] *)
Definition repr_note (nt : note_t) : string :=
  match nt with
  | None => "None"
  | Some s => repr_str s
  end.

(** The sample function [echo] (lines 163-169). *)
Definition echo : handler := fun type match_ ext rest nt =>
  {| resp_r := Some ("echo type:" +:+ type +:+ " match:" +:+ match_ +:+ " ext:" +:+ ext
                     +:+ " rest:" +:+ rest +:+ " note:" +:+ repr_note nt);
     resp_c := None;
     resp_h := Some [("Content-type", HStr "text/plain")] |}.

(** A value of the [bindings] dictionary: [{"method": ..., "note": ...}]. *)
Record binding : Type := Binding {
  method : handler;
  note : note_t
}.

(** The attributes of a [Dispatch] object.  [default] is set to [None] by
    [__init__] and never read: the catch-all is the entry of [bindings]
    under the key ["default"]. *)
Record Dispatch : Type := MkDispatch {
  bindings : gmap string binding;
  default_attr : option binding;
  baseurl : string
}.

Definition __init__ : Dispatch :=
  {| bindings := ∅; default_attr := None; baseurl := EmptyString |}.

Definition set_bindings (m : gmap string binding) (self : Dispatch) : Dispatch :=
  {| bindings := m; default_attr := default_attr self; baseurl := baseurl self |}.

Definition set_baseurl (url : string) : M Dispatch unit :=
  self <- get ;;
  put {| bindings := bindings self; default_attr := default_attr self; baseurl := url |}.

Definition get_baseurl : M Dispatch string :=
  self <- get ;;
  ret (baseurl self).

Definition munge_url (url : string) : M Dispatch string :=
  self <- get ;;
  ret (baseurl self +:+ url).

(** [self.bindings.has_key(k)] *)
Definition has_key (k : string) : M Dispatch bool :=
  self <- get ;;
  ret (bool_decide (is_Some (bindings self !! k))).

(** [self.bindings[k]] *)
Definition getitem (k : string) : M Dispatch binding :=
  self <- get ;;
  match bindings self !! k with
  | Some b => ret b
  | None => raise (KeyError k)
  end.

(** [self.bindings[k] = b] *)
Definition setitem (k : string) (b : binding) : M Dispatch unit :=
  self <- get ;;
  put (set_bindings (<[k := b]> (bindings self)) self).

(** [del self.bindings[k]] *)
Definition delitem (k : string) : M Dispatch unit :=
  self <- get ;;
  match bindings self !! k with
  | Some _ => put (set_bindings (delete k (bindings self)) self)
  | None => raise (KeyError k)
  end.

Definition bind (url : string) (meth : handler) (nt : note_t) : M Dispatch unit :=
  setitem url {| method := meth; note := nt |}.

Definition unbind (url : string) : M Dispatch unit :=
  try_except (delitem url) (ret tt).

(** The call a [return] statement of [call] makes: the bound function and
    its five keyword arguments. *)
Record invocation : Type := Invocation {
  inv_method : handler;
  inv_type : string;
  inv_match : string;
  inv_ext : string;
  inv_rest : string;
  inv_note : note_t
}.

Definition invoke (i : invocation) : response :=
  inv_method i (inv_type i) (inv_match i) (inv_ext i) (inv_rest i) (inv_note i).

(** Lines 226-236: the extension test on the last segment of [match], and
    the new [(match, ext)]. *)
Definition strip_ext (match_ : string) : string * string :=
  if String.eqb (Py.rpartition "." (Py.last_item (Py.split "/" match_))).2
                (Py.last_item (Py.split "/" match_))
  then (match_, EmptyString)
  else ((Py.rpartition "." match_).1.1,
        "." +:+ (Py.rpartition "." match_).2).

(** [if type != 'PUT': data = ...] *)
Definition rest_for (type data from_url : string) : string :=
  if negb (String.eqb type "PUT") then from_url else data.

(** How the [while] loop of [call] ends: at a [return] in its body, or with
    its condition false. *)
Inductive loop_exit : Type :=
| Return (i : invocation)
| LoopEnd.

(** Lines 225-248: the loop, from the current value of [match].  One unit
    of fuel per evaluation of the loop condition. *)
Fixpoint call_loop (fuel : nat) (url type data match_ : string) : M Dispatch loop_exit :=
  match fuel with
  | O => timeout
  | S fuel' =>
      if Nat.ltb 0 (String.length match_) then
        let match1 := (strip_ext match_).1 in
        let ext := (strip_ext match_).2 in
        found <- has_key match1 ;;
        if (found : bool) then
          let data1 := rest_for type data (Py.slice_from (String.length (match1 +:+ ext)) url) in
          b <- getitem match1 ;;
          b' <- getitem match1 ;;
          ret (Return {| inv_method := method b; inv_type := type; inv_match := match1;
                         inv_ext := ext; inv_rest := data1; inv_note := note b' |})
        else
          call_loop fuel' url type data (Py.item0 (Py.rsplit1 "/" match1))
      else ret LoopEnd
  end.

(** The portion of [url] that [call] matches against (line 223):
    [url.rsplit('?', 1)[0]]. *)
Definition working_path (url : string) : string := Py.item0 (Py.rsplit1 "?" url).

(** Lines 222-260 up to the calls: [Some i] when [call] returns the result
    of the call [i], [None] when it returns the not-found dictionary. *)
Definition call_select (fuel : nat) (url type data : string) : M Dispatch (option invocation) :=
  let match_ := working_path url in
  e <- call_loop fuel url type data match_ ;;
  match e with
  | Return i => ret (Some i)
  | LoopEnd =>
      found <- has_key "default" ;;
      if (found : bool) then
        let data1 := rest_for type data url in
        b <- getitem "default" ;;
        b' <- getitem "default" ;;
        ret (Some {| inv_method := method b; inv_type := type; inv_match := EmptyString;
                     inv_ext := EmptyString; inv_rest := data1; inv_note := note b' |})
      else ret None
  end.

(** [{'r': None, 'c': httplib.NOT_FOUND, 'h': None}] *)
Definition not_found_response : response :=
  {| resp_r := None; resp_c := Some NOT_FOUND; resp_h := None |}.

Definition call (fuel : nat) (url type data : string) : M Dispatch response :=
  sel <- call_select fuel url type data ;;
  match sel with
  | Some i => ret (invoke i)
  | None => ret not_found_response
  end.

(** The invocation the loop returns on a hit at key [m1] with extension
    [ext] (lines 239-246), for the binding [b] found there. *)
Definition hit_of (url type data : string) (b : binding) (m1 ext : string) : invocation :=
  {| inv_method := method b; inv_type := type; inv_match := m1; inv_ext := ext;
     inv_rest := rest_for type data (Py.slice_from (String.length (m1 +:+ ext)) url);
     inv_note := note b |}.

(** What [call] selects once the loop has ended without a hit (lines
    250-260). *)
Definition fallback (url type data : string) (self : Dispatch) : option invocation :=
  match bindings self !! "default" with
  | Some b => Some {| inv_method := method b; inv_type := type; inv_match := EmptyString;
                      inv_ext := EmptyString; inv_rest := rest_for type data url;
                      inv_note := note b |}
  | None => None
  end.

(** The empty path and the paths that begin with a slash. *)
Definition rooted (m : string) : Prop :=
  m = EmptyString \/ exists t, m = String "/" t.

(** A client of a [Dispatch] object: a sequence of method calls. *)
Inductive op : Type :=
| OpBind (url : string) (meth : handler) (nt : note_t)
| OpUnbind (url : string)
| OpCall (fuel : nat) (url type data : string)
| OpSetBaseurl (url : string)
| OpGetBaseurl
| OpMungeUrl (url : string).

Definition run_op (o : op) (self : Dispatch) : Dispatch :=
  match o with
  | OpBind url meth nt => snd (bind url meth nt self)
  | OpUnbind url => snd (unbind url self)
  | OpCall fuel url type data => snd (call fuel url type data self)
  | OpSetBaseurl url => snd (set_baseurl url self)
  | OpGetBaseurl => snd (get_baseurl self)
  | OpMungeUrl url => snd (munge_url url self)
  end.

Definition run_ops (os : list op) (self : Dispatch) : Dispatch :=
  List.fold_left (fun d o => run_op o d) os self.

Definition mutates_table (o : op) : bool :=
  match o with
  | OpBind _ _ _ | OpUnbind _ => true
  | _ => false
  end.

(** Tables for the examples: three of the bindings the module makes when
    it is run as a program ([/], [/foo], [/foo/bar], each to [echo] with the
    note ["index"]), and small tables of one or two bindings. *)
Definition table_of (keys : list string) : Dispatch :=
  run_ops (List.map (fun k => OpBind k echo (Some "index")) keys) __init__.

Definition main_table : Dispatch := table_of ["/"; "/foo"; "/foo/bar"].

(** *** class MyHTTPRequestHandler *)

(** What a request handler does to its connection, in order. *)
Inductive event : Type :=
| send_response (code : Z) (message : string)
| send_error (code : Z) (message : string)
| send_header (keyword : string) (value : header_value)
| end_headers
| wfile_write (data : string)
| connection_close
| SimpleHTTPRequestHandler_do_GET.

(** The state a request runs in: the [Dispatch] object shared through the
    class attribute [MyHTTPRequestHandler.dispatch], the global [serial],
    and the events on the connection so far. *)
Record server_state : Type := ServerState {
  dispatch : Dispatch;
  serial : Z;
  wire : list event
}.

(** What the base class has parsed of a request: [self.path], and for a PUT
    the result of lines 289-293 ([Content-Length] bytes read from [rfile],
    or [''] when the header is missing or malformed). *)
Record request : Type := Request {
  path : string;
  put_data : string
}.

Definition emit (e : event) : M server_state unit :=
  st <- get ;;
  put {| dispatch := dispatch st; serial := serial st; wire := (wire st ++ [e])%list |}.

Definition incr_serial : M server_state unit :=
  st <- get ;;
  put {| dispatch := dispatch st; serial := (serial st + 1)%Z; wire := wire st |}.

Definition on_dispatch {A : Type} (m : M Dispatch A) : M server_state A :=
  zoom dispatch
    (fun d st => {| dispatch := d; serial := serial st; wire := wire st |}) m.

(** The two return values of [do_all]. *)
Inductive do_all_result : Type :=
| RNone
| RTrue.

Definition CONTINUE : Z := 100.
Definition OK : Z := 200.
Definition BAD_REQUEST : Z := 400.

(** [r = {'r': None, 'c': httplib.OK, 'h': None}; r.update(result)] *)
Definition update_defaults (result : response) : response :=
  {| resp_r := resp_r result;
     resp_c := Some (default (Int OK) (resp_c result));
     resp_h := resp_h result |}.

(** [r['c'] is httplib.NOT_FOUND] *)
Definition is_NOT_FOUND (c : status) : bool :=
  match c with
  | NOT_FOUND => true
  | Int _ => false
  end.

Fixpoint send_headers (hs : list (string * header_value)) : M server_state unit :=
  match hs with
  | [] => ret tt
  | header :: hs' => emit (send_header header.1 header.2) ;;; send_headers hs'
  end.

Section RequestHandler.

(** [httplib.responses], the standard library's table of reason phrases. *)
Variable responses : Z -> option string.

(** [httplib.responses[code]] *)
Definition responses_item (code : Z) : M server_state string :=
  match responses code with
  | Some msg => ret msg
  | None => raise (KeyError "responses")
  end.

(** Lines 271-348.  The [print] statements and the [Debug] tests that guard
    them write to standard output only and are left out. *)
Definition do_all (fuel : nat) (req : request) (type : string) : M server_state do_all_result :=
  incr_serial ;;;
  data <- (if String.eqb type "PUT" then
             msg <- responses_item CONTINUE ;;
             emit (send_response CONTINUE msg) ;;;
             ret (put_data req)
           else ret EmptyString) ;;
  result <- on_dispatch (call fuel (path req) type data) ;;
  let r := update_defaults result in
  let c := default (Int OK) (resp_c r) in
  if is_NOT_FOUND c then ret RNone
  else
    (if Z.leb BAD_REQUEST (status_value c) then
       msg <- responses_item (status_value c) ;;
       emit (send_error (status_value c) msg)
     else
       msg <- responses_item (status_value c) ;;
       emit (send_response (status_value c) msg)) ;;;
    let cl := match resp_r r with
              | Some body => Z.of_nat (String.length body)
              | None => 0%Z
              end in
    let h := match resp_h r with
             | None => [("Content-Length", HInt cl)]
             | Some hs => (hs ++ [("Content-Length", HInt cl)])%list
             end in
    send_headers h ;;;
    emit end_headers ;;;
    (match resp_r r with
     | Some body => emit (wfile_write body)
     | None => ret tt
     end) ;;;
    emit connection_close ;;;
    ret RTrue.

Definition do_POST (fuel : nat) (req : request) : M server_state unit :=
  do_all fuel req "POST" ;;; ret tt.

Definition do_PUT (fuel : nat) (req : request) : M server_state unit :=
  do_all fuel req "PUT" ;;; ret tt.

Definition do_DELETE (fuel : nat) (req : request) : M server_state unit :=
  do_all fuel req "DELETE" ;;; ret tt.

Definition do_GET (fuel : nat) (req : request) : M server_state unit :=
  res <- do_all fuel req "GET" ;;
  match res with
  | RNone => emit SimpleHTTPRequestHandler_do_GET
  | RTrue => ret tt
  end.

End RequestHandler.

End microhttpd.

(** ** debugging.py: DebugMessage *)

Module debugging_message.

(** The five functions of the dictionary [levels] (lines 170-176), each
    named by the level it logs at. *)
Inductive levelname : Type :=
| CRITICAL
| ERROR
| WARNING
| INFO
| DEBUG.

Definition levelname_string (l : levelname) : string :=
  match l with
  | CRITICAL => "CRITICAL"
  | ERROR => "ERROR"
  | WARNING => "WARNING"
  | INFO => "INFO"
  | DEBUG => "DEBUG"
  end.

Definition levels (level : string) : option levelname :=
  if String.eqb level "CRITICAL" then Some CRITICAL
  else if String.eqb level "ERROR" then Some ERROR
  else if String.eqb level "WARNING" then Some WARNING
  else if String.eqb level "INFO" then Some INFO
  else if String.eqb level "DEBUG" then Some DEBUG
  else None.

Fixpoint spaces (n : nat) : string :=
  match n with
  | O => EmptyString
  | S n' => String " " (spaces n')
  end.

(** [%-8s] and [%4d]: padding to a minimal width, on the right and on the
    left. *)
Definition ljust (width : nat) (s : string) : string :=
  s +:+ spaces (width - String.length s).

Definition rjust (width : nat) (s : string) : string :=
  spaces (width - String.length s) +:+ s.

Definition decimal (n : nat) : string := NilEmpty.string_of_uint (Nat.to_uint n).

(** A line on [sys.stderr] under the format of line 167,
    ['%(levelname)-8s %(message)s']; the root logger is set to level DEBUG,
    so every record is written. *)
Definition format_record (l : levelname) (message : string) : string :=
  ljust 8 (levelname_string l) +:+ " " +:+ message.

(** What [inspect.getouterframes] reports of a frame: [outer[1][1]] and
    [outer[1][2]], a file name and a line number. *)
Record frame_info : Type := FrameInfo {
  filename : string;
  lineno : nat
}.

(** [os.path.basename]: what follows the last slash. *)
Definition basename (p : string) : string :=
  match Py.cut_last "/" p with
  | Some (_, tail) => tail
  | None => p
  end.

(** ['%s - %4d: %s' % (os.path.basename(outer[1][1]), outer[1][2], msg)] *)
Definition position_message (caller : frame_info) (msg : string) : string :=
  basename (filename caller) +:+ " - " +:+ rjust 4 (decimal (lineno caller))
  +:+ ": " +:+ msg.

(** [levels[level]] *)
Definition levels_item (level : string) : M (list string) levelname :=
  match levels level with
  | Some l => ret l
  | None => raise (KeyError level)
  end.

(** A call of [logging.critical], ..., [logging.debug]: one line more on
    [sys.stderr]. *)
Definition log (l : levelname) (message : string) : M (list string) unit :=
  out <- get ;;
  put (out ++ [format_record l message])%list.

(** An optional argument [level="DEBUG"]. *)
Definition level_arg (level : option string) : string := default "DEBUG" level.

(** [DebugMessage(msg, level="DEBUG")] (lines 179-201), called from the
    frame [caller].  [here] is the frame of [DebugMessage] itself at the
    recursive call of line 197, which that call sees as its caller.  The
    state is the list of lines written to [sys.stderr]; one unit of fuel
    per call. *)
Fixpoint DebugMessage (fuel : nat) (here caller : frame_info) (msg : string)
    (level : option string) : M (list string) unit :=
  match fuel with
  | O => timeout
  | S fuel' =>
      try_except
        (f <- levels_item (level_arg level) ;;
         log f (position_message caller msg))
        (DebugMessage fuel' here here
           ("DebugMessage() called with unknown level: " +:+ level_arg level) None ;;;
         log ERROR (position_message caller msg))
  end.

End debugging_message.

(** ** Vocabulary of the properties *)

(** A string that is empty or begins with a dot, a slash or a question
    mark: what may follow a matched path in a url. *)
Definition boundary (s : string) : bool :=
  match s with
  | EmptyString => true
  | String a _ => Ascii.eqb a "." || Ascii.eqb a "/" || Ascii.eqb a "?"
  end.

(** [k] is [m] or [m] cut at one of its slashes. *)
Definition segment_prefix (k m : string) : Prop :=
  m = k \/ exists r : string, m = k +:+ String "/" r.

(** A step of a request handler that leaves the dispatcher and the serial
    number alone and only adds events to the connection. *)
Definition only_writes {A : Type} (m : M microhttpd.server_state A) : Prop :=
  forall st : microhttpd.server_state,
    microhttpd.dispatch (snd (m st)) = microhttpd.dispatch st
    /\ microhttpd.serial (snd (m st)) = microhttpd.serial st
    /\ exists evs : list microhttpd.event,
         microhttpd.wire (snd (m st)) = (microhttpd.wire st ++ evs)%list.

(** The events of a complete response: status line, the headers with
    [Content-Length] added last, the end of the headers, the body when
    there is one, and the close of the connection. *)
Definition response_events (code : Z) (msg : string) (r : microhttpd.response)
    : list microhttpd.event :=
  let cl := match microhttpd.resp_r r with
            | Some body => Z.of_nat (String.length body)
            | None => 0%Z
            end in
  ([if Z.leb 400 code then microhttpd.send_error code msg
    else microhttpd.send_response code msg]
   ++ List.map (fun h => microhttpd.send_header h.1 h.2)
        (default [] (microhttpd.resp_h r) ++ [("Content-Length", microhttpd.HInt cl)])
   ++ [microhttpd.end_headers]
   ++ match microhttpd.resp_r r with
      | Some body => [microhttpd.wfile_write body]
      | None => []
      end
   ++ [microhttpd.connection_close])%list.

(** * Properties *)

(** ** The string methods *)

Section PyFacts.

Variable c : ascii.

Lemma length_append (s t : string) :
  String.length (s +:+ t) = String.length s + String.length t.
Proof. induction s as [|a s IH]; simpl; [reflexivity | now rewrite IH]. Qed.

Lemma cut_last_None (s : string) :
  Py.cut_last c s = None <-> Py.contains c s = false.
Proof.
  induction s as [|a s IH]; simpl; [tauto|].
  destruct (Py.cut_last c s) as [[l r]|].
  - split; [discriminate|].
    intros H. apply orb_false_elim in H as [_ H]. apply IH in H. discriminate.
  - destruct (Ascii.eqb a c); simpl.
    + split; discriminate.
    + split; intros _; [now apply IH | reflexivity].
Qed.

Lemma cut_last_Some (s l r : string) :
  Py.cut_last c s = Some (l, r) ->
  s = l +:+ String c r /\ Py.contains c r = false.
Proof.
  revert l. induction s as [|a s IH]; simpl; intros l H; [discriminate|].
  destruct (Py.cut_last c s) as [[l' r']|] eqn:E.
  - injection H as <- <-. destruct (IH l' eq_refl) as [-> Hr].
    split; [reflexivity | exact Hr].
  - destruct (Ascii.eqb_spec a c) as [->|]; [|discriminate].
    injection H as <- <-. split; [reflexivity | now apply cut_last_None].
Qed.

Lemma cut_last_at (l r : string) :
  Py.contains c r = false ->
  Py.cut_last c (l +:+ String c r) = Some (l, r).
Proof.
  intros Hr. induction l as [|a l IH]; simpl.
  - apply cut_last_None in Hr. rewrite Hr, Ascii.eqb_refl. reflexivity.
  - rewrite IH. reflexivity.
Qed.

Lemma cut_last_clean_suffix (s t : string) :
  Py.contains c t = false ->
  Py.cut_last c (s +:+ t) =
  match Py.cut_last c s with
  | Some (l, r) => Some (l, r +:+ t)
  | None => None
  end.
Proof.
  intros Ht. induction s as [|a s IH]; simpl.
  - now apply cut_last_None.
  - rewrite IH. destruct (Py.cut_last c s) as [[l r]|]; [reflexivity|].
    destruct (Ascii.eqb a c); reflexivity.
Qed.

Lemma cut_last_shorter (s l r : string) :
  Py.cut_last c s = Some (l, r) -> String.length l < String.length s.
Proof.
  intros H. apply cut_last_Some in H as [-> _].
  rewrite length_append. simpl. lia.
Qed.

Lemma contains_append (s t : string) :
  Py.contains c (s +:+ t) = Py.contains c s || Py.contains c t.
Proof.
  induction s as [|a s IH]; simpl; [reflexivity|].
  rewrite IH. now rewrite orb_assoc.
Qed.

Lemma last_item_cons (x y : string) (l : list string) :
  Py.last_item (x :: y :: l) = Py.last_item (y :: l).
Proof. unfold Py.last_item. simpl. now rewrite Nat.sub_0_r. Qed.

Lemma split_no_sep (s : string) :
  Py.contains c s = false -> Py.split c s = [s].
Proof.
  induction s as [|a s IH]; simpl; [reflexivity|].
  intros H. apply orb_false_elim in H as [Ha Hs].
  rewrite Ha, (IH Hs). reflexivity.
Qed.

Lemma split_has_sep (s : string) :
  Py.contains c s = true -> exists x y l, Py.split c s = x :: y :: l.
Proof.
  induction s as [|a s IH]; simpl; [discriminate|].
  destruct (Ascii.eqb a c); simpl.
  - intros _. destruct (Py.contains c s) eqn:E.
    + destruct (IH eq_refl) as (x & y & l & ->). eauto.
    + rewrite (split_no_sep _ E). eauto.
  - intros H. destruct (IH H) as (x & y & l & ->). eauto.
Qed.

(** The last element of [s.split(c)] is what follows the last [c]. *)
Lemma last_item_split (s : string) :
  Py.last_item (Py.split c s) =
  match Py.cut_last c s with
  | Some (_, r) => r
  | None => s
  end.
Proof.
  induction s as [|a s IH]; [reflexivity|].
  simpl. destruct (Py.contains c s) eqn:E.
  - destruct (split_has_sep _ E) as (x & y & l & Hsp).
    rewrite Hsp in *.
    assert (exists l' r', Py.cut_last c s = Some (l', r')) as (l' & r' & Hc).
    { destruct (Py.cut_last c s) as [[l' r']|] eqn:Hc; [eauto|].
      apply cut_last_None in Hc. congruence. }
    rewrite Hc in *.
    destruct (Ascii.eqb a c); rewrite !last_item_cons; rewrite last_item_cons in IH;
      exact IH.
  - rewrite (split_no_sep _ E).
    apply cut_last_None in E. rewrite E.
    destruct (Ascii.eqb a c); reflexivity.
Qed.

(** [s.rpartition(c)[2] == s] exactly when [c] does not occur in [s]. *)
Lemma rpartition_tail_eqb (s : string) :
  String.eqb (Py.rpartition c s).2 s = negb (Py.contains c s).
Proof.
  unfold Py.rpartition.
  destruct (Py.cut_last c s) as [[l r]|] eqn:E; simpl.
  - assert (Py.contains c s = true) as ->.
    { destruct (Py.contains c s) eqn:H; [reflexivity|].
      apply cut_last_None in H. congruence. }
    apply String.eqb_neq. intros ->.
    apply cut_last_Some in E as [E _].
    apply (f_equal String.length) in E. rewrite length_append in E. simpl in E. lia.
  - apply cut_last_None in E. rewrite E. apply String.eqb_refl.
Qed.

End PyFacts.

(** The methods on the strings of the module's documentation. *)
Example rsplit1_query : Py.rsplit1 "?" "/foo/bar?baz=2" = ["/foo/bar"; "baz=2"].
Proof. reflexivity. Qed.

Example rsplit1_no_separator : Py.rsplit1 "/" "abc" = ["abc"].
Proof. reflexivity. Qed.

Example rsplit1_root : Py.rsplit1 "/" "/test" = [""; "test"].
Proof. reflexivity. Qed.

Example split_segments : Py.split "/" "/foo/bar.baz" = [""; "foo"; "bar.baz"].
Proof. reflexivity. Qed.

Example last_item_segments : Py.last_item (Py.split "/" "/foo/bar.baz") = "bar.baz".
Proof. reflexivity. Qed.

Example rpartition_ext : Py.rpartition "." "/foo/bar.baz" = ("/foo/bar", ".", "baz").
Proof. reflexivity. Qed.

Example rpartition_no_separator : Py.rpartition "." "bar" = ("", "", "bar").
Proof. reflexivity. Qed.

Example slice_from_past_the_end : Py.slice_from 9 "abc" = "".
Proof. reflexivity. Qed.

Example split_ws_words : PyWords.split_ws "  foo   foobar " = ["foo"; "foobar"].
Proof. reflexivity. Qed.

(** ** Extension extraction *)

Section StripExt.

Import microhttpd.

(** The test of line 226 is "the last segment has no dot". *)
Lemma strip_ext_test (m : string) :
  strip_ext m =
  if Py.contains "." (Py.last_item (Py.split "/" m))
  then ((Py.rpartition "." m).1.1, "." +:+ (Py.rpartition "." m).2)
  else (m, EmptyString).
Proof.
  unfold strip_ext. rewrite rpartition_tail_eqb.
  destruct (Py.contains "." (Py.last_item (Py.split "/" m))); reflexivity.
Qed.

Lemma strip_ext_no_dot (m : string) :
  Py.contains "." m = false -> strip_ext m = (m, EmptyString).
Proof.
  intros H. rewrite strip_ext_test, last_item_split.
  destruct (Py.cut_last "/" m) as [[l r]|] eqn:E.
  - apply cut_last_Some in E as [-> _].
    rewrite contains_append in H. simpl in H.
    apply orb_false_elim in H as [_ ->]. reflexivity.
  - rewrite H. reflexivity.
Qed.

(** A dot in the last segment: the path is cut at its last dot. *)
Lemma strip_ext_dot (pre suf : string) :
  Py.contains "." suf = false ->
  Py.contains "/" suf = false ->
  strip_ext (pre +:+ String "." suf) = (pre, String "." suf).
Proof.
  intros Hdot Hslash.
  rewrite strip_ext_test, last_item_split.
  assert (Py.contains "/" (String "." suf) = false) as Hs by exact Hslash.
  rewrite (cut_last_clean_suffix "/" pre _ Hs).
  assert (forall x, Py.contains "." (x +:+ String "." suf) = true) as Hc.
  { intros x. rewrite contains_append. simpl. apply orb_true_r. }
  unfold Py.rpartition. rewrite (cut_last_at "." pre suf Hdot). simpl.
  destruct (Py.cut_last "/" pre) as [[l r]|]; rewrite Hc; reflexivity.
Qed.

(** The path looked up is never longer than the path at loop entry. *)
Lemma strip_ext_length (m : string) :
  String.length (strip_ext m).1 <= String.length m.
Proof.
  rewrite strip_ext_test.
  destruct (Py.contains "." (Py.last_item (Py.split "/" m))); simpl; [|lia].
  unfold Py.rpartition.
  destruct (Py.cut_last "." m) as [[l r]|] eqn:E; simpl; [|lia].
  apply cut_last_shorter in E. lia.
Qed.

(** With a dot in the last segment it is strictly shorter. *)
Lemma strip_ext_length_dot (m : string) :
  Py.contains "." (Py.last_item (Py.split "/" m)) = true ->
  String.length (strip_ext m).1 < String.length m.
Proof.
  intros H. rewrite strip_ext_test, H. simpl.
  unfold Py.rpartition.
  destruct (Py.cut_last "." m) as [[l r]|] eqn:E; simpl.
  - now apply cut_last_shorter in E.
  - destruct m; [discriminate H | simpl; lia].
Qed.

Lemma rsplit1_head_length (c : ascii) (m : string) :
  String.length (Py.item0 (Py.rsplit1 c m)) <= String.length m.
Proof.
  unfold Py.rsplit1.
  destruct (Py.cut_last c m) as [[l r]|] eqn:E; simpl; [|lia].
  apply cut_last_shorter in E. lia.
Qed.

End StripExt.

(** ** The matching loop, one iteration at a time *)

Section Loop.

Import microhttpd.

Variables (url type data : string).

Lemma call_loop_step (fuel : nat) (m : string) (self : Dispatch) :
  call_loop (S fuel) url type data m self =
  if Nat.ltb 0 (String.length m) then
    match bindings self !! (strip_ext m).1 with
    | Some b => (Val (Return (hit_of url type data b (strip_ext m).1 (strip_ext m).2)), self)
    | None => call_loop fuel url type data (Py.item0 (Py.rsplit1 "/" (strip_ext m).1)) self
    end
  else (Val LoopEnd, self).
Proof.
  simpl. destruct (Nat.ltb 0 (String.length m)); [|reflexivity].
  cbv beta iota delta [bnd has_key getitem get ret raise].
  destruct (bindings self !! (strip_ext m).1) as [b|] eqn:E; simpl;
    rewrite ?E; reflexivity.
Qed.

Lemma call_loop_empty (fuel : nat) (self : Dispatch) :
  call_loop (S fuel) url type data EmptyString self = (Val LoopEnd, self).
Proof. reflexivity. Qed.

Lemma call_loop_hit (fuel : nat) (m m1 ext : string) (b : binding) (self : Dispatch) :
  m <> EmptyString ->
  strip_ext m = (m1, ext) ->
  bindings self !! m1 = Some b ->
  call_loop (S fuel) url type data m self = (Val (Return (hit_of url type data b m1 ext)), self).
Proof.
  intros Hm Hs Hb. rewrite call_loop_step, Hs. simpl. rewrite Hb.
  destruct m; [congruence | reflexivity].
Qed.

Lemma call_loop_miss (fuel : nat) (m m1 ext : string) (self : Dispatch) :
  m <> EmptyString ->
  strip_ext m = (m1, ext) ->
  bindings self !! m1 = None ->
  call_loop (S fuel) url type data m self =
  call_loop fuel url type data (Py.item0 (Py.rsplit1 "/" m1)) self.
Proof.
  intros Hm Hs Hb. rewrite call_loop_step, Hs. simpl. rewrite Hb.
  destruct m; [congruence | reflexivity].
Qed.

(** The loop never writes to the [Dispatch] object. *)
Lemma call_loop_state (fuel : nat) (m : string) (self : Dispatch) :
  snd (call_loop fuel url type data m self) = self.
Proof.
  revert m. induction fuel as [|fuel IH]; intros m; [reflexivity|].
  rewrite call_loop_step.
  destruct (Nat.ltb 0 (String.length m)); [|reflexivity].
  destruct (bindings self !! (strip_ext m).1); [reflexivity | apply IH].
Qed.

Lemma call_select_loop (fuel : nat) (self : Dispatch) :
  call_select fuel url type data self =
  match call_loop fuel url type data (working_path url) self with
  | (Val (Return i), s) => (Val (Some i), s)
  | (Val LoopEnd, s) => (Val (fallback url type data s), s)
  | (Raised e, s) => (Raised e, s)
  | (Timeout, s) => (Timeout, s)
  end.
Proof.
  unfold call_select, bnd.
  destruct (call_loop fuel url type data (working_path url) self) as [[[i|]|e|] s];
    try reflexivity.
  cbv beta iota delta [fallback bnd has_key getitem get ret raise].
  destruct (bindings s !! "default") as [b|] eqn:E; simpl; rewrite ?E; reflexivity.
Qed.

Lemma call_of_select (fuel : nat) (self : Dispatch) :
  call fuel url type data self =
  match call_select fuel url type data self with
  | (Val (Some i), s) => (Val (invoke i), s)
  | (Val None, s) => (Val not_found_response, s)
  | (Raised e, s) => (Raised e, s)
  | (Timeout, s) => (Timeout, s)
  end.
Proof.
  unfold call, bnd.
  destruct (call_select fuel url type data self) as [[[i|]|e|] s]; reflexivity.
Qed.

End Loop.

(** ** Selected bindings on concrete paths *)

(** One iteration of the loop on a concrete path that misses: evaluate the
    extension test and the truncation. *)
Ltac eval_truncation :=
  match goal with
  | |- context [Py.item0 (Py.rsplit1 ?c ?s)] =>
      let v := eval vm_compute in (Py.item0 (Py.rsplit1 c s)) in
      change (Py.item0 (Py.rsplit1 c s)) with v
  end.

Ltac loop_miss m1 ext :=
  erewrite (call_loop_miss _ _ _ _ _ m1 ext);
  [ eval_truncation | discriminate | vm_compute; reflexivity
  | first [eassumption | vm_compute; reflexivity] ].

Ltac loop_hit m1 ext :=
  erewrite (call_loop_hit _ _ _ _ _ m1 ext);
  [ | discriminate | vm_compute; reflexivity
  | first [eassumption | vm_compute; reflexivity] ].

Ltac enter_loop :=
  rewrite call_select_loop;
  match goal with
  | |- context [microhttpd.working_path ?u] =>
      let v := eval vm_compute in (microhttpd.working_path u) in
      change (microhttpd.working_path u) with v
  end.

Section Matching.

Import microhttpd.

Lemma rest_for_PUT (type data from_url : string) :
  rest_for type data from_url = if String.eqb type "PUT" then data else from_url.
Proof. unfold rest_for. destruct (String.eqb type "PUT"); reflexivity. Qed.

(** C1 (as amended): backward matching at segment boundaries.  With a
    binding at [/a/b] and none at [/a/b/c], [call("/a/b/c", type, data)]
    calls the function bound at [/a/b] with [match="/a/b"], [ext=""] and
    [rest="/c"], except that for [type = "PUT"] the [rest] argument is
    [data]; and with a binding at [/foo/bar] and none at
    [/foo/bartsimpson], [call("/foo/bartsimpson", ...)] calls the binding at
    [/foo] when there is one, else the one under ["default"], else returns
    the not-found dictionary: never the binding at [/foo/bar]. *)
Theorem backward_segment_match :
  (forall (self : Dispatch) (b : binding) (fuel : nat) (type data : string),
     bindings self !! "/a/b" = Some b ->
     bindings self !! "/a/b/c" = None ->
     call_select (2 + fuel) "/a/b/c" type data self =
       (Val (Some {| inv_method := method b; inv_type := type; inv_match := "/a/b";
                     inv_ext := ""; inv_note := note b;
                     inv_rest := if String.eqb type "PUT" then data else "/c" |}),
        self)
     /\ call (2 + fuel) "/a/b/c" type data self =
       (Val (method b type "/a/b" "" (if String.eqb type "PUT" then data else "/c")
               (note b)), self))
  /\
  (forall (self : Dispatch) (b : binding) (fuel : nat) (type data : string),
     bindings self !! "/foo/bar" = Some b ->
     bindings self !! "/foo/bartsimpson" = None ->
     call_select (3 + fuel) "/foo/bartsimpson" type data self =
       (Val match bindings self !! "/foo" with
            | Some b1 =>
                Some {| inv_method := method b1; inv_type := type; inv_match := "/foo";
                        inv_ext := ""; inv_note := note b1;
                        inv_rest := if String.eqb type "PUT" then data
                                    else "/bartsimpson" |}
            | None =>
                match bindings self !! "default" with
                | Some b0 =>
                    Some {| inv_method := method b0; inv_type := type; inv_match := "";
                            inv_ext := ""; inv_note := note b0;
                            inv_rest := if String.eqb type "PUT" then data
                                        else "/foo/bartsimpson" |}
                | None => None
                end
            end, self)).
Proof.
  split; intros self b fuel type data Hb Hnone.
  - assert (call_select (2 + fuel) "/a/b/c" type data self =
            (Val (Some (hit_of "/a/b/c" type data b "/a/b" "")), self)) as Hsel.
    { change (2 + fuel) with (S (S fuel)). enter_loop.
      loop_miss "/a/b/c" "". loop_hit "/a/b" "". reflexivity. }
    split.
    + rewrite Hsel. unfold hit_of. rewrite rest_for_PUT. reflexivity.
    + rewrite call_of_select, Hsel. unfold invoke, hit_of. simpl.
      rewrite rest_for_PUT. reflexivity.
  - change (3 + fuel) with (S (S (S fuel))). enter_loop.
    loop_miss "/foo/bartsimpson" "".
    destruct (bindings self !! "/foo") as [b1|] eqn:Hfoo.
    + loop_hit "/foo" "". unfold hit_of. rewrite rest_for_PUT. reflexivity.
    + loop_miss "/foo" "". rewrite call_loop_empty.
      unfold fallback. destruct (bindings self !! "default") as [b0|]; [|reflexivity].
      rewrite rest_for_PUT. reflexivity.
Qed.

Lemma backward_segment_match_witness :
  (bindings (table_of ["/a/b"]) !! "/a/b" = Some {| method := echo; note := Some "index" |}
   /\ bindings (table_of ["/a/b"]) !! "/a/b/c" = None
   /\ call 2 "/a/b/c" "GET" "" (table_of ["/a/b"]) =
        (Val (echo "GET" "/a/b" "" "/c" (Some "index")), table_of ["/a/b"]))
  /\
  (bindings main_table !! "/foo/bar" = Some {| method := echo; note := Some "index" |}
   /\ bindings main_table !! "/foo/bartsimpson" = None
   /\ call_select 3 "/foo/bartsimpson" "GET" "" main_table =
        (Val (Some {| inv_method := echo; inv_type := "GET"; inv_match := "/foo";
                      inv_ext := ""; inv_rest := "/bartsimpson";
                      inv_note := Some "index" |}), main_table)).
Proof.
  split.
  - split; [reflexivity|]. split; [reflexivity|].
    exact (proj2 (proj1 backward_segment_match (table_of ["/a/b"])
                    {| method := echo; note := Some "index" |} 0 "GET" ""
                    eq_refl eq_refl)).
  - split; [reflexivity|]. split; [reflexivity|].
    exact (proj2 backward_segment_match main_table
             {| method := echo; note := Some "index" |} 0 "GET" "" eq_refl eq_refl).
Defined.

(** C1, as stated, fails for a PUT: the [rest] argument is the request
    body, not the remainder of the url. *)
Lemma backward_match_PUT_rest_is_body :
  bindings (table_of ["/a/b"]) !! "/a/b" = Some {| method := echo; note := Some "index" |}
  /\ bindings (table_of ["/a/b"]) !! "/a/b/c" = None
  /\ exists i : invocation,
       call_select 2 "/a/b/c" "PUT" "payload" (table_of ["/a/b"]) =
         (Val (Some i), table_of ["/a/b"])
       /\ inv_match i = "/a/b" /\ inv_rest i = "payload" /\ inv_rest i <> "/c".
Proof.
  split; [reflexivity|]. split; [reflexivity|].
  eexists. split; [vm_compute; reflexivity|].
  repeat split. discriminate.
Qed.

End Matching.

(** The example of the module's documentation: a GET on
    [/foo/bar.baz?stuff] matched to [/foo/bar]. *)
Example documented_match :
  microhttpd.call_select 1 "/foo/bar.baz?stuff" "GET" "" microhttpd.main_table =
    (Val (Some {| microhttpd.inv_method := microhttpd.echo;
                  microhttpd.inv_type := "GET";
                  microhttpd.inv_match := "/foo/bar";
                  microhttpd.inv_ext := ".baz";
                  microhttpd.inv_rest := "?stuff";
                  microhttpd.inv_note := Some "index" |}), microhttpd.main_table).
Proof. reflexivity. Qed.

(** The root: [/] and [/?message=hello] reach a binding at [/]; [/test]
    does not. *)
Example documented_root :
  fst (microhttpd.call 1 "/" "GET" "" microhttpd.main_table) =
    Val (microhttpd.echo "GET" "/" "" "" (Some "index"))
  /\ fst (microhttpd.call 1 "/?message=hello" "GET" "" microhttpd.main_table) =
       Val (microhttpd.echo "GET" "/" "" "?message=hello" (Some "index"))
  /\ fst (microhttpd.call 2 "/test" "GET" "" microhttpd.main_table) =
       Val microhttpd.not_found_response.
Proof. repeat split. Qed.

(** ** Extensions *)

Section Extension.

Import microhttpd.

Lemma append_String (a : ascii) (s t : string) :
  String a s +:+ t = String a (s +:+ t).
Proof. reflexivity. Qed.

Lemma append_assoc' (s t u : string) : (s +:+ t) +:+ u = s +:+ (t +:+ u).
Proof.
  induction s as [|a s IH]; [reflexivity|].
  rewrite !append_String, IH. reflexivity.
Qed.

Lemma contains_cut_last (c : ascii) (s : string) :
  Py.contains c s = true -> exists l r, Py.cut_last c s = Some (l, r).
Proof.
  intros H. destruct (Py.cut_last c s) as [[l r]|] eqn:E; [eauto|].
  apply cut_last_None in E. congruence.
Qed.

(** A path whose last segment holds a dot, cut at its last dot. *)
Lemma dotted_last_segment (m : string) :
  Py.contains "." (Py.last_item (Py.split "/" m)) = true ->
  exists pre suf,
    m = pre +:+ String "." suf
    /\ Py.contains "." suf = false
    /\ Py.contains "/" suf = false.
Proof.
  rewrite last_item_split. intros H.
  destruct (Py.cut_last "/" m) as [[l r]|] eqn:E.
  - apply cut_last_Some in E as [-> Hr].
    destruct (contains_cut_last _ _ H) as (x & suf & Hx).
    apply cut_last_Some in Hx as [-> Hsuf].
    exists (l +:+ String "/" x), suf. split; [|split].
    + rewrite append_assoc', append_String. reflexivity.
    + exact Hsuf.
    + rewrite contains_append in Hr. simpl in Hr.
      now apply orb_false_elim in Hr as [_ Hr].
  - apply cut_last_None in E.
    destruct (contains_cut_last _ _ H) as (x & suf & Hx).
    apply cut_last_Some in Hx as [-> Hsuf].
    exists x, suf. split; [reflexivity|]. split; [exact Hsuf|].
    rewrite contains_append in E. simpl in E.
    now apply orb_false_elim in E as [_ E].
Qed.

(** C3: the extension and the rest.  With a binding at [/foo/bar],
    [call("/foo/bar.json?x=1", "GET", data)] calls its function with
    [match="/foo/bar"], [ext=".json"] and [rest="?x=1"].  In general, when
    the last segment of the path holds a dot, the path is [pre + "." + suf]
    with no dot and no slash in [suf], the extension is ["." + suf], and the
    key looked up in the table is [pre]. *)
Theorem extension_and_rest :
  (forall (self : Dispatch) (b : binding) (fuel : nat) (data : string),
     bindings self !! "/foo/bar" = Some b ->
     call_select (S fuel) "/foo/bar.json?x=1" "GET" data self =
       (Val (Some {| inv_method := method b; inv_type := "GET"; inv_match := "/foo/bar";
                     inv_ext := ".json"; inv_rest := "?x=1"; inv_note := note b |}), self)
     /\ call (S fuel) "/foo/bar.json?x=1" "GET" data self =
       (Val (method b "GET" "/foo/bar" ".json" "?x=1" (note b)), self))
  /\
  (forall m : string,
     Py.contains "." (Py.last_item (Py.split "/" m)) = true ->
     exists pre suf : string,
       m = pre +:+ "." +:+ suf
       /\ Py.contains "." suf = false
       /\ Py.contains "/" suf = false
       /\ strip_ext m = (pre, "." +:+ suf)
       /\ forall (self : Dispatch) (fuel : nat) (url type data : string),
            call_loop (S fuel) url type data m self =
            match bindings self !! pre with
            | Some b =>
                (Val (Return {| inv_method := method b; inv_type := type;
                                inv_match := pre; inv_ext := "." +:+ suf;
                                inv_rest := rest_for type data
                                  (Py.slice_from (String.length (pre +:+ "." +:+ suf)) url);
                                inv_note := note b |}), self)
            | None =>
                call_loop fuel url type data (Py.item0 (Py.rsplit1 "/" pre)) self
            end).
Proof.
  split.
  - intros self b fuel data Hb.
    assert (call_select (S fuel) "/foo/bar.json?x=1" "GET" data self =
            (Val (Some (hit_of "/foo/bar.json?x=1" "GET" data b "/foo/bar" ".json")), self))
      as Hsel.
    { enter_loop. loop_hit "/foo/bar" ".json". reflexivity. }
    split; [exact Hsel|].
    rewrite call_of_select, Hsel. reflexivity.
  - intros m Hdot.
    destruct (dotted_last_segment m Hdot) as (pre & suf & -> & Hsuf & Hslash).
    exists pre, suf. change ("." +:+ suf) with (String "." suf).
    pose proof (strip_ext_dot pre suf Hsuf Hslash) as Hstrip.
    repeat split; try assumption.
    intros self fuel url type data.
    rewrite call_loop_step, Hstrip. simpl fst. simpl snd.
    replace (Nat.ltb 0 (String.length (pre +:+ String "." suf))) with true.
    + destruct (bindings self !! pre); reflexivity.
    + symmetry. apply Nat.ltb_lt. rewrite length_append. simpl. lia.
Qed.

Lemma extension_and_rest_witness :
  (bindings main_table !! "/foo/bar" = Some {| method := echo; note := Some "index" |}
   /\ call 1 "/foo/bar.json?x=1" "GET" "" main_table =
        (Val (echo "GET" "/foo/bar" ".json" "?x=1" (Some "index")), main_table))
  /\
  (Py.contains "." (Py.last_item (Py.split "/" "/foo/bar.tar.gz")) = true
   /\ exists pre suf : string,
        "/foo/bar.tar.gz" = pre +:+ "." +:+ suf
        /\ strip_ext "/foo/bar.tar.gz" = (pre, "." +:+ suf)).
Proof.
  split.
  - split; [reflexivity|].
    exact (proj2 (proj1 extension_and_rest main_table
                    {| method := echo; note := Some "index" |} 0 "" eq_refl)).
  - split; [reflexivity|].
    destruct (proj2 extension_and_rest "/foo/bar.tar.gz" eq_refl)
      as (pre & suf & Hm & _ & _ & Hs & _).
    exists pre, suf. split; assumption.
Defined.

End Extension.

(** ** Termination of the matching loop *)

Section Termination.

Import microhttpd.

(** A path without a slash is left as it is by the truncation of line 248:
    [rsplit('/', 1)] returns the whole string. *)
Lemma truncation_without_slash (m : string) :
  Py.contains "/" m = false -> Py.item0 (Py.rsplit1 "/" m) = m.
Proof.
  intros H. unfold Py.rsplit1. apply cut_last_None in H. rewrite H. reflexivity.
Qed.

(** On a non-empty path with no slash and no dot that is not bound, the
    loop makes no progress: whatever the fuel, it does not return. *)
Lemma call_loop_spins (self : Dispatch) (url type data m : string) (fuel : nat) :
  m <> EmptyString ->
  Py.contains "/" m = false ->
  Py.contains "." m = false ->
  bindings self !! m = None ->
  call_loop fuel url type data m self = (Timeout, self).
Proof.
  intros Hm Hslash Hdot Hb.
  induction fuel as [|fuel IH]; [reflexivity|].
  rewrite (call_loop_miss url type data fuel m m EmptyString self Hm
             (strip_ext_no_dot m Hdot) Hb).
  rewrite truncation_without_slash by exact Hslash. exact IH.
Qed.

Lemma rooted_prefix (l r : string) :
  rooted (l +:+ r) -> rooted l \/ l = EmptyString.
Proof.
  intros [H|[t H]]; destruct l as [|a l]; auto.
  - discriminate H.
  - left. right. rewrite append_String in H. injection H as -> _. eauto.
Qed.

Lemma rooted_strip_ext (m : string) :
  rooted m -> rooted (strip_ext m).1.
Proof.
  intros Hr. rewrite strip_ext_test.
  destruct (Py.contains "." (Py.last_item (Py.split "/" m))) eqn:E; [|exact Hr].
  destruct (dotted_last_segment m E) as (pre & suf & -> & Hsuf & _).
  unfold Py.rpartition. rewrite (cut_last_at "." pre suf Hsuf). simpl.
  destruct (rooted_prefix _ _ Hr) as [H| ->]; [exact H | now left].
Qed.

Lemma rooted_truncation (m : string) :
  rooted m -> m <> EmptyString ->
  rooted (Py.item0 (Py.rsplit1 "/" m))
  /\ String.length (Py.item0 (Py.rsplit1 "/" m)) < String.length m.
Proof.
  intros [->|[t ->]] Hne; [congruence|].
  unfold Py.rsplit1.
  destruct (Py.cut_last "/" (String "/" t)) as [[l r]|] eqn:E.
  - simpl. split; [|now apply cut_last_shorter in E].
    apply cut_last_Some in E as [E _].
    assert (rooted (l +:+ String "/" r)) as Hr by (rewrite <- E; right; eauto).
    destruct (rooted_prefix _ _ Hr) as [H| ->]; [exact H | now left].
  - apply cut_last_None in E. simpl in E. discriminate E.
Qed.

(** On a rooted path the loop returns, hit or no hit, with fuel beyond the
    length of the path. *)
Lemma call_loop_returns (self : Dispatch) (url type data : string) (n : nat) :
  forall m : string,
    rooted m -> String.length m <= n ->
    exists e : loop_exit,
      forall fuel : nat, n < fuel ->
        call_loop fuel url type data m self = (Val e, self).
Proof.
  induction n as [|n IH]; intros m Hr Hlen.
  - destruct m; [|simpl in Hlen; lia].
    exists LoopEnd. intros [|fuel] Hf; [lia | reflexivity].
  - destruct (String.eqb_spec m EmptyString) as [->|Hne].
    { exists LoopEnd. intros [|fuel] Hf; [lia | reflexivity]. }
    destruct (bindings self !! (strip_ext m).1) as [b|] eqn:Hb.
    + exists (Return (hit_of url type data b (strip_ext m).1 (strip_ext m).2)).
      intros [|fuel] Hf; [lia|].
      apply call_loop_hit; [exact Hne | apply surjective_pairing | exact Hb].
    + pose proof (rooted_strip_ext m Hr) as Hr1.
      pose proof (strip_ext_length m) as Hl1.
      destruct (String.eqb_spec (strip_ext m).1 EmptyString) as [He|Hne1].
      * exists LoopEnd. intros [|[|fuel]] Hf; [lia | lia |].
        rewrite (call_loop_miss url type data (S fuel) m _ _ self Hne
                   (surjective_pairing _) Hb).
        rewrite He. reflexivity.
      * destruct (rooted_truncation _ Hr1 Hne1) as [Hr2 Hl2].
        destruct (IH (Py.item0 (Py.rsplit1 "/" (strip_ext m).1)) Hr2) as [e He];
          [lia|].
        exists e. intros [|fuel] Hf; [lia|].
        rewrite (call_loop_miss url type data fuel m _ _ self Hne
                   (surjective_pairing _) Hb).
        apply He. lia.
Qed.

(** [call] returns on every url whose working path is empty or begins with
    a slash. *)
Lemma call_returns_on_rooted_paths (self : Dispatch) (url type data : string) :
  rooted (working_path url) ->
  exists resp : response,
    forall fuel : nat, String.length (working_path url) < fuel ->
      call fuel url type data self = (Val resp, self).
Proof.
  intros Hr.
  destruct (call_loop_returns self url type data _ _ Hr (Nat.le_refl _)) as [e He].
  destruct e as [i|].
  - exists (invoke i). intros fuel Hf.
    rewrite call_of_select, call_select_loop, (He fuel Hf). reflexivity.
  - exists (match fallback url type data self with
            | Some i => invoke i
            | None => not_found_response
            end).
    intros fuel Hf.
    rewrite call_of_select, call_select_loop, (He fuel Hf).
    destruct (fallback url type data self); reflexivity.
Qed.

(** C2 (the code diverges from the claim): on the url [abc], which has no
    slash, the truncation of line 248 leaves [match] as it is instead of
    emptying it, and with no binding at [abc] the loop never exits: [call]
    does not return, whatever the fuel. *)
Theorem call_loop_does_not_terminate_without_slash :
  Py.item0 (Py.rsplit1 "/" "abc") = "abc"
  /\ forall (fuel : nat) (type data : string),
       call fuel "abc" type data microhttpd.main_table = (Timeout, microhttpd.main_table).
Proof.
  split; [reflexivity|].
  intros fuel type data.
  rewrite call_of_select, call_select_loop.
  change (working_path "abc") with "abc".
  rewrite call_loop_spins; (reflexivity || discriminate).
Qed.

End Termination.

(** ** The query part of the url *)

Section Query.

Import microhttpd.

(** The working path is what precedes the LAST question mark. *)
Lemma working_path_last_question_mark (p q : string) :
  Py.contains "?" q = false -> working_path (p +:+ String "?" q) = p.
Proof.
  intros Hq. unfold working_path, Py.rsplit1.
  rewrite (cut_last_at "?" p q Hq). reflexivity.
Qed.

Lemma working_path_no_question_mark (url : string) :
  Py.contains "?" url = false -> working_path url = url.
Proof.
  intros H. unfold working_path, Py.rsplit1.
  apply cut_last_None in H. rewrite H. reflexivity.
Qed.

(** The working path is empty exactly for the empty url and for a url that
    begins with its only question mark. *)
Lemma working_path_empty (url : string) :
  working_path url = EmptyString <->
  url = EmptyString \/ exists q, url = String "?" q /\ Py.contains "?" q = false.
Proof.
  split.
  - unfold working_path, Py.rsplit1.
    destruct (Py.cut_last "?" url) as [[l r]|] eqn:E; simpl.
    + intros ->. apply cut_last_Some in E as [-> Hr]. right. eauto.
    + intros ->. now left.
  - intros [->|(q & -> & Hq)]; [reflexivity|].
    exact (working_path_last_question_mark EmptyString q Hq).
Qed.

(** With an empty working path the loop body is never entered: [call]
    goes to the ["default"] binding or returns the not-found dictionary. *)
Lemma empty_working_path_skips_loop
    (self : Dispatch) (url type data : string) (fuel : nat) :
  working_path url = EmptyString ->
  call_loop (S fuel) url type data (working_path url) self = (Val LoopEnd, self)
  /\ call_select (S fuel) url type data self = (Val (fallback url type data self), self).
Proof.
  intros Hw. rewrite call_select_loop, Hw, call_loop_empty. split; reflexivity.
Qed.

(** C4 (the code diverges from the claim): [rsplit('?', 1)] cuts the url at
    its last question mark, not its first.  For [/a?b?c] the working path is
    [/a?b]; with a binding at [/a] the claim has [call] reach that binding,
    and the code looks up [/a?b], truncates to the empty path and returns
    the not-found dictionary. *)
Theorem working_path_cut_at_last_question_mark :
  working_path "/a?b?c" = "/a?b"
  /\ working_path "/a?b?c" <> "/a"
  /\ bindings (table_of ["/a"]) !! "/a" = Some {| method := echo; note := Some "index" |}
  /\ forall (fuel : nat) (type data : string),
       call (2 + fuel) "/a?b?c" type data (table_of ["/a"]) =
         (Val not_found_response, table_of ["/a"]).
Proof.
  split; [reflexivity|]. split; [discriminate|]. split; [reflexivity|].
  intros fuel type data.
  rewrite call_of_select. change (2 + fuel) with (S (S fuel)). enter_loop.
  loop_miss "/a?b" "".
  rewrite call_loop_empty. reflexivity.
Qed.

(** C9 (the code diverges from the claim): a url that begins with a
    question mark and holds a second one has a non-empty working path, so
    the loop is entered.  For [?a?b] the working path is [?a]: a binding at
    [?a] is called (with [rest="?b"]), and without one [call] does not
    return. *)
Theorem leading_question_mark_enters_loop :
  working_path "?a?b" = "?a"
  /\ (forall fuel : nat,
        call_select (S fuel) "?a?b" "GET" "" (table_of ["?a"]) =
          (Val (Some {| inv_method := echo; inv_type := "GET"; inv_match := "?a";
                        inv_ext := ""; inv_rest := "?b"; inv_note := Some "index" |}),
           table_of ["?a"]))
  /\ (forall (fuel : nat) (type data : string),
        call fuel "?a?b" type data main_table = (Timeout, main_table)).
Proof.
  split; [reflexivity|]. split.
  - intros fuel. enter_loop. loop_hit "?a" "". reflexivity.
  - intros fuel type data. rewrite call_of_select, call_select_loop.
    change (working_path "?a?b") with "?a".
    rewrite call_loop_spins; (reflexivity || discriminate).
Qed.

End Query.

(** ** Extensions on later iterations *)

Section LaterIterations.

Import microhttpd.

Lemma contains_truncation (c : ascii) (m : string) :
  Py.contains c m = false -> Py.contains c (Py.item0 (Py.rsplit1 "/" m)) = false.
Proof.
  intros H. unfold Py.rsplit1.
  destruct (Py.cut_last "/" m) as [[l r]|] eqn:E; simpl; [|exact H].
  apply cut_last_Some in E as [-> _].
  rewrite contains_append in H. now apply orb_false_elim in H as [H _].
Qed.

(** From a path without a dot, every hit has an empty extension. *)
Lemma call_loop_no_dot (self s : Dispatch) (url type data : string) (i : invocation)
    (fuel : nat) :
  forall m : string,
    Py.contains "." m = false ->
    call_loop fuel url type data m self = (Val (Return i), s) ->
    inv_ext i = EmptyString.
Proof.
  induction fuel as [|fuel IH]; intros m Hdot H; [discriminate H|].
  rewrite call_loop_step, (strip_ext_no_dot m Hdot) in H. simpl in H.
  destruct (Nat.ltb 0 (String.length m)); [|discriminate H].
  destruct (bindings self !! m) as [b|].
  - injection H as Hi _. subst i. reflexivity.
  - apply (IH _ (contains_truncation "." m Hdot) H).
Qed.

(** The extension is cut inside the last segment. *)
Lemma strip_ext_last_segment (p seg : string) :
  Py.contains "/" seg = false ->
  exists seg' : string,
    (strip_ext (p +:+ String "/" seg)).1 = p +:+ String "/" seg'
    /\ Py.contains "/" seg' = false.
Proof.
  intros Hseg.
  destruct (Py.contains "." seg) eqn:Hdot.
  - destruct (contains_cut_last _ _ Hdot) as (x & suf & Hx).
    apply cut_last_Some in Hx as [-> Hsuf].
    rewrite contains_append in Hseg. apply orb_false_elim in Hseg as [Hx Hs].
    exists x. split; [|exact Hx].
    replace (p +:+ String "/" (x +:+ String "." suf))
      with ((p +:+ String "/" x) +:+ String "." suf)
      by (rewrite append_assoc', append_String; reflexivity).
    rewrite strip_ext_dot; [reflexivity | exact Hsuf | exact Hs].
  - exists seg. split; [|exact Hseg].
    rewrite strip_ext_test, last_item_split, (cut_last_at "/" p seg Hseg), Hdot.
    reflexivity.
Qed.

(** C5 (as amended): when the working path holds a slash and no dot before
    its last slash, a hit found after the first iteration gets the
    extension [""].  With a dot in an earlier segment a later iteration does
    see an extension: for [/a.b/c] and a binding at [/a], the hit is on the
    second iteration, with [ext=".b"] and [rest="/c"]. *)
Theorem later_hit_extension :
  (forall (self s : Dispatch) (url type data p seg : string) (fuel : nat)
          (i : invocation),
     working_path url = p +:+ "/" +:+ seg ->
     Py.contains "/" seg = false ->
     Py.contains "." p = false ->
     bindings self !! (strip_ext (working_path url)).1 = None ->
     call_loop fuel url type data (working_path url) self = (Val (Return i), s) ->
     inv_ext i = "")
  /\
  (bindings (table_of ["/a"]) !! (strip_ext (working_path "/a.b/c")).1 = None
   /\ forall (fuel : nat) (type data : string),
        call_select (2 + fuel) "/a.b/c" type data (table_of ["/a"]) =
          (Val (Some {| inv_method := echo; inv_type := type; inv_match := "/a";
                        inv_ext := ".b"; inv_note := Some "index";
                        inv_rest := if String.eqb type "PUT" then data else "/c" |}),
           table_of ["/a"])).
Proof.
  split.
  - intros self s url type data p seg fuel i Hw Hseg Hp Hmiss H.
    change ("/" +:+ seg) with (String "/" seg) in Hw.
    rewrite Hw in *.
    destruct fuel as [|fuel]; [discriminate H|].
    destruct (strip_ext_last_segment p seg Hseg) as (seg' & Hs & Hseg').
    assert (p +:+ String "/" seg <> EmptyString) as Hne by (destruct p; discriminate).
    rewrite (call_loop_miss url type data fuel _ _ _ self
               Hne (surjective_pairing _) Hmiss) in H.
    rewrite Hs in H. unfold Py.rsplit1 in H.
    rewrite (cut_last_at "/" p seg' Hseg') in H. simpl in H.
    exact (call_loop_no_dot self s url type data i fuel p Hp H).
  - split; [reflexivity|].
    intros fuel type data. change (2 + fuel) with (S (S fuel)). enter_loop.
    loop_miss "/a.b/c" "". loop_hit "/a" ".b".
    unfold hit_of. rewrite rest_for_PUT. reflexivity.
Qed.

Lemma later_hit_extension_witness :
  working_path "/foo/bar/baz.json?x=1" = "/foo/bar" +:+ "/" +:+ "baz.json"
  /\ Py.contains "/" "baz.json" = false
  /\ Py.contains "." "/foo/bar" = false
  /\ bindings main_table !! (strip_ext (working_path "/foo/bar/baz.json?x=1")).1 = None
  /\ call_loop 2 "/foo/bar/baz.json?x=1" "GET" ""
       (working_path "/foo/bar/baz.json?x=1") main_table =
       (Val (Return (hit_of "/foo/bar/baz.json?x=1" "GET" ""
                       {| method := echo; note := Some "index" |} "/foo/bar" "")),
        main_table)
  /\ inv_ext (hit_of "/foo/bar/baz.json?x=1" "GET" ""
                {| method := echo; note := Some "index" |} "/foo/bar" "") = "".
Proof.
  repeat (split; [reflexivity|]).
  exact (proj1 later_hit_extension main_table main_table
           "/foo/bar/baz.json?x=1" "GET" "" "/foo/bar" "baz.json" 2 _
           eq_refl eq_refl eq_refl eq_refl eq_refl).
Defined.

(** C5, as stated, fails: [/a.b/c] against a binding at [/a] misses on the
    first iteration and hits on the second with the extension [".b"]. *)
Lemma later_iteration_sees_extension :
  bindings (table_of ["/a"]) !! (strip_ext (working_path "/a.b/c")).1 = None
  /\ exists i : invocation,
       call_loop 2 "/a.b/c" "GET" "" (working_path "/a.b/c") (table_of ["/a"]) =
         (Val (Return i), table_of ["/a"])
       /\ inv_match i = "/a" /\ inv_ext i = ".b" /\ inv_ext i <> "".
Proof.
  split; [reflexivity|].
  eexists. split; [vm_compute; reflexivity|].
  repeat split. discriminate.
Qed.

End LaterIterations.

(** ** Bindings at dotted paths *)

Section DottedBinding.

Import microhttpd.

(** The key of a hit is never longer than the path the loop started from. *)
Lemma call_loop_key_length (self s : Dispatch) (url type data : string)
    (i : invocation) (fuel : nat) :
  forall m : string,
    call_loop fuel url type data m self = (Val (Return i), s) ->
    String.length (inv_match i) <= String.length (strip_ext m).1.
Proof.
  induction fuel as [|fuel IH]; intros m H; [discriminate H|].
  rewrite call_loop_step in H.
  destruct (Nat.ltb 0 (String.length m)); [|discriminate H].
  destruct (bindings self !! (strip_ext m).1) as [b|].
  - injection H as Hi _. subst i. simpl. lia.
  - apply IH in H.
    pose proof (strip_ext_length (Py.item0 (Py.rsplit1 "/" (strip_ext m).1))).
    pose proof (rsplit1_head_length "/" (strip_ext m).1). lia.
Qed.

(** Two tables that agree on every key shorter than [n] give the same
    result from any path whose first lookup is shorter than [n]. *)
Lemma call_loop_agree (self1 self2 : Dispatch) (url type data : string) (n fuel : nat) :
  (forall k : string, String.length k < n -> bindings self1 !! k = bindings self2 !! k) ->
  forall m : string,
    String.length (strip_ext m).1 < n ->
    fst (call_loop fuel url type data m self1) = fst (call_loop fuel url type data m self2).
Proof.
  intros Hagree. induction fuel as [|fuel IH]; intros m Hm; [reflexivity|].
  rewrite !call_loop_step.
  destruct (Nat.ltb 0 (String.length m)); [|reflexivity].
  rewrite <- (Hagree _ Hm).
  destruct (bindings self1 !! (strip_ext m).1) as [b|]; [reflexivity|].
  apply IH.
  pose proof (strip_ext_length (Py.item0 (Py.rsplit1 "/" (strip_ext m).1))).
  pose proof (rsplit1_head_length "/" (strip_ext m).1). lia.
Qed.

(** For a path [P] whose last segment holds a dot, the first key looked up
    for the url [P] is shorter than [P]. *)
Lemma dotted_first_lookup_shorter (P : string) :
  Py.contains "." (Py.last_item (Py.split "/" P)) = true ->
  String.length (strip_ext (working_path P)).1 < String.length P.
Proof.
  intros Hdot. unfold working_path, Py.rsplit1.
  destruct (Py.cut_last "?" P) as [[l r]|] eqn:E; simpl.
  - apply cut_last_shorter in E. pose proof (strip_ext_length l). lia.
  - now apply strip_ext_length_dot.
Qed.

Lemma fst_call_select (self : Dispatch) (url type data : string) (fuel : nat) :
  fst (call_select fuel url type data self) =
  match fst (call_loop fuel url type data (working_path url) self) with
  | Val (Return i) => Val (Some i)
  | Val LoopEnd => Val (fallback url type data self)
  | Raised e => Raised e
  | Timeout => Timeout
  end.
Proof.
  rewrite call_select_loop.
  pose proof (call_loop_state url type data fuel (working_path url) self) as Hs.
  destruct (call_loop fuel url type data (working_path url) self) as [[[i|]|e|] s];
    simpl in *; subst; reflexivity.
Qed.

(** C8: a binding at a path [P] whose last segment holds a dot is never
    the one selected for the url [P].  The result of [call] for that url
    does not depend on the table's entry at [P]; and with a binding at
    [/foo.json] and none at [/foo], [call("/foo.json", ...)] looks up
    [/foo], then goes to the ["default"] binding or returns the not-found
    dictionary. *)
Theorem dotted_binding_never_matched :
  (forall (self s : Dispatch) (P type data : string) (fuel : nat) (i : invocation),
     Py.contains "." (Py.last_item (Py.split "/" P)) = true ->
     call_select fuel P type data self = (Val (Some i), s) ->
     inv_match i <> P)
  /\
  (forall (self1 self2 : Dispatch) (P type data : string) (fuel : nat),
     Py.contains "." (Py.last_item (Py.split "/" P)) = true ->
     (forall k : string, k <> P -> bindings self1 !! k = bindings self2 !! k) ->
     fst (call fuel P type data self1) = fst (call fuel P type data self2))
  /\
  (forall (self : Dispatch) (b : binding) (type data : string) (fuel : nat),
     bindings self !! "/foo.json" = Some b ->
     bindings self !! "/foo" = None ->
     (strip_ext (working_path "/foo.json")).1 = "/foo"
     /\ call_select (2 + fuel) "/foo.json" type data self =
          (Val match bindings self !! "default" with
               | Some b0 =>
                   Some {| inv_method := method b0; inv_type := type; inv_match := "";
                           inv_ext := ""; inv_note := note b0;
                           inv_rest := if String.eqb type "PUT" then data
                                       else "/foo.json" |}
               | None => None
               end, self)).
Proof.
  split; [|split].
  - intros self s P type data fuel i Hdot H Heq.
    pose proof (dotted_first_lookup_shorter P Hdot) as Hlt.
    rewrite call_select_loop in H.
    destruct (call_loop fuel P type data (working_path P) self) as [[[i'|]|e|] s'] eqn:E;
      try discriminate H.
    + injection H as Hi _. subst i'.
      apply call_loop_key_length in E. rewrite Heq in E. lia.
    + injection H as Hf _. unfold fallback in Hf.
      destruct (bindings s' !! "default"); [|discriminate Hf].
      injection Hf as Hi. subst i. simpl in Heq. subst P. discriminate Hdot.
  - intros self1 self2 P type data fuel Hdot Hagree.
    assert (P <> "default") as Hdef by (intros ->; discriminate Hdot).
    assert (fst (call_select fuel P type data self1)
            = fst (call_select fuel P type data self2)) as Hsel.
    { rewrite !fst_call_select.
      rewrite (call_loop_agree self1 self2 P type data (String.length P) fuel).
      - unfold fallback. rewrite (Hagree "default") by congruence. reflexivity.
      - intros k Hk. apply Hagree. intros ->. lia.
      - now apply dotted_first_lookup_shorter. }
    rewrite !call_of_select.
    destruct (call_select fuel P type data self1) as [[[i1|]|e1|] s1];
      destruct (call_select fuel P type data self2) as [[[i2|]|e2|] s2];
      simpl in Hsel; try discriminate Hsel; try reflexivity;
      injection Hsel as Hsel; subst; reflexivity.
  - intros self b type data fuel Hb Hfoo.
    split; [reflexivity|].
    change (2 + fuel) with (S (S fuel)). enter_loop.
    loop_miss "/foo" ".json". rewrite call_loop_empty.
    unfold fallback. destruct (bindings self !! "default"); [|reflexivity].
    rewrite rest_for_PUT. reflexivity.
Qed.

Lemma dotted_binding_never_matched_witness :
  (Py.contains "." (Py.last_item (Py.split "/" "/foo.json")) = true
   /\ call_select 2 "/foo.json" "GET" "" (table_of ["/foo.json"; "default"]) =
        (Val (Some {| inv_method := echo; inv_type := "GET"; inv_match := "";
                      inv_ext := ""; inv_rest := "/foo.json";
                      inv_note := Some "index" |}),
         table_of ["/foo.json"; "default"])
   /\ inv_match {| inv_method := echo; inv_type := "GET"; inv_match := "";
                   inv_ext := ""; inv_rest := "/foo.json";
                   inv_note := Some "index" |} <> "/foo.json")
  /\
  (bindings (table_of ["/foo.json"]) !! "/foo.json"
     = Some {| method := echo; note := Some "index" |}
   /\ bindings (table_of ["/foo.json"]) !! "/foo" = None
   /\ call_select 2 "/foo.json" "GET" "" (table_of ["/foo.json"]) =
        (Val None, table_of ["/foo.json"])).
Proof.
  split.
  - split; [reflexivity|]. split; [reflexivity|].
    exact (proj1 dotted_binding_never_matched
             (table_of ["/foo.json"; "default"]) (table_of ["/foo.json"; "default"])
             "/foo.json" "GET" "" 2 _ eq_refl eq_refl).
  - split; [reflexivity|]. split; [reflexivity|].
    exact (proj2 (proj2 (proj2 dotted_binding_never_matched) (table_of ["/foo.json"])
                    {| method := echo; note := Some "index" |} "GET" "" 0
                    eq_refl eq_refl)).
Defined.

End DottedBinding.

(** ** The binding table under [call], [bind] and [unbind] *)

Section Table.

Import microhttpd.

Lemma call_select_state (self : Dispatch) (url type data : string) (fuel : nat) :
  snd (call_select fuel url type data self) = self.
Proof.
  rewrite call_select_loop.
  pose proof (call_loop_state url type data fuel (working_path url) self) as Hs.
  destruct (call_loop fuel url type data (working_path url) self) as [[[i|]|e|] s];
    simpl in *; exact Hs.
Qed.

Lemma call_state (self : Dispatch) (url type data : string) (fuel : nat) :
  snd (call fuel url type data self) = self.
Proof.
  rewrite call_of_select.
  pose proof (call_select_state self url type data fuel) as Hs.
  destruct (call_select fuel url type data self) as [[[i|]|e|] s]; simpl in *; exact Hs.
Qed.

Lemma bind_table (self : Dispatch) (url : string) (meth : handler) (nt : note_t) :
  bindings (snd (bind url meth nt self)) =
  <[url := {| method := meth; note := nt |}]> (bindings self).
Proof. reflexivity. Qed.

Lemma unbind_table (self : Dispatch) (url : string) :
  bindings (snd (unbind url self)) = delete url (bindings self).
Proof.
  unfold unbind, try_except, delitem, bnd, get, put, raise, ret.
  destruct (bindings self !! url) eqn:E; simpl; [reflexivity|].
  symmetry. now apply delete_id.
Qed.

(** C7: [call] leaves the [Dispatch] object, and so the binding table, as
    it found it, whether it returns or not; of the methods, only [bind] and
    [unbind] change the table ([bind] sets the entry at its path, [unbind]
    removes it); and in every state reached from a new [Dispatch] by any
    sequence of method calls the table holds at most one binding per path. *)
Theorem call_is_read_only :
  (forall (self : Dispatch) (url type data : string) (fuel : nat),
     snd (call fuel url type data self) = self)
  /\ (forall (o : op) (self : Dispatch),
        mutates_table o = false -> bindings (run_op o self) = bindings self)
  /\ (forall (self : Dispatch) (url : string) (meth : handler) (nt : note_t),
        bindings (snd (bind url meth nt self)) =
          <[url := {| method := meth; note := nt |}]> (bindings self))
  /\ (forall (self : Dispatch) (url : string),
        bindings (snd (unbind url self)) = delete url (bindings self))
  /\ (forall (os : list op) (k : string) (b1 b2 : binding),
        let table := map_to_list (bindings (run_ops os __init__)) in
        NoDup (List.map fst table)
        /\ ((k, b1) ∈ table -> (k, b2) ∈ table -> b1 = b2)).
Proof.
  split; [|split; [|split; [|split]]].
  - intros. apply call_state.
  - intros [url meth nt|url|fuel url type data|url| |url] self H;
      try discriminate H; simpl; try reflexivity.
    now rewrite call_state.
  - apply bind_table.
  - apply unbind_table.
  - intros os k b1 b2 table. split.
    + apply (NoDup_fst_map_to_list (bindings (run_ops os __init__))).
    + intros H1 H2. apply elem_of_map_to_list in H1, H2. congruence.
Qed.

Lemma call_is_read_only_witness :
  mutates_table (OpCall 3 "/foo/bar/baz" "GET" "") = false
  /\ bindings (run_op (OpCall 3 "/foo/bar/baz" "GET" "") main_table) = bindings main_table.
Proof.
  split; [reflexivity|].
  exact (proj1 (proj2 call_is_read_only) (OpCall 3 "/foo/bar/baz" "GET" "") main_table
           eq_refl).
Defined.

End Table.

(** ** The request handler on a not-found result *)

Section NotFound.

Import microhttpd.

Variable responses : Z -> option string.

(** Whatever the method, [do_all] returns [None] on a not-found status
    before it writes anything; for a method other than PUT nothing at all
    has been written by then. *)
Lemma do_all_not_found_silent (fuel : nat) (req : request) (type : string)
    (st : server_state) (resp : response) :
  String.eqb type "PUT" = false ->
  call fuel (path req) type "" (dispatch st) = (Val resp, dispatch st) ->
  resp_c resp = Some NOT_FOUND ->
  do_all responses fuel req type st =
    (Val RNone, {| dispatch := dispatch st; serial := (serial st + 1)%Z; wire := wire st |}).
Proof.
  intros Hput Hcall Hc.
  unfold do_all. rewrite Hput.
  cbv beta iota delta [bnd incr_serial get put ret on_dispatch zoom].
  simpl. rewrite Hcall. unfold update_defaults. simpl. rewrite Hc. reflexivity.
Qed.

(** C6 (the code diverges from the claim): [do_all] returns [None] on a
    not-found status for every method, and only [do_GET] acts on that
    return value.  A POST (or DELETE) of a path that no binding matches
    leaves the connection without any response: no status line, no header,
    no body, and no hand-over to the static file server; the same request
    as a GET is handed over. *)
Theorem not_found_POST_writes_no_response :
  forall fuel : nat,
    let req := {| path := "/missing"; put_data := "" |} in
    let st := {| dispatch := main_table; serial := 0; wire := [] |} in
    call (2 + fuel) "/missing" "POST" "" main_table = (Val not_found_response, main_table)
    /\ do_POST responses (2 + fuel) req st =
         (Val tt, {| dispatch := main_table; serial := 1; wire := [] |})
    /\ do_DELETE responses (2 + fuel) req st =
         (Val tt, {| dispatch := main_table; serial := 1; wire := [] |})
    /\ do_GET responses (2 + fuel) req st =
         (Val tt, {| dispatch := main_table; serial := 1;
                     wire := [SimpleHTTPRequestHandler_do_GET] |}).
Proof.
  intros fuel req st.
  assert (forall type : string,
            call (2 + fuel) "/missing" type "" main_table
            = (Val not_found_response, main_table)) as Hcall.
  { intros type. rewrite call_of_select.
    change (2 + fuel) with (S (S fuel)). enter_loop.
    loop_miss "/missing" "". rewrite call_loop_empty. reflexivity. }
  split; [apply Hcall|].
  assert (forall type : string, String.eqb type "PUT" = false ->
            do_all responses (2 + fuel) req type st =
            (Val RNone, {| dispatch := main_table; serial := 1; wire := [] |})) as Hall.
  { intros type Hput.
    apply (do_all_not_found_silent (2 + fuel) req type st not_found_response Hput);
      [apply Hcall | reflexivity]. }
  unfold do_POST, do_DELETE, do_GET, bnd.
  rewrite !Hall by reflexivity. repeat split.
Qed.

End NotFound.

(** ** The debug words *)

Section DebugWords.

Import debugging.

Lemma Debug_result (name : option string) (g : globals) :
  Debug name g = (Val (bool_decide (is_Some (__vars g !! name_arg name))), g).
Proof. reflexivity. Qed.

Lemma DebugSet_vars (name : option string) (g : globals) :
  __vars (snd (DebugSet name g)) = <[name_arg name := name_arg name]> (__vars g).
Proof. reflexivity. Qed.

Lemma DebugUnset_vars (name : option string) (g : globals) :
  __vars (snd (DebugUnset name g)) =
  if String.eqb (name_arg name) " " then ∅ else delete (name_arg name) (__vars g).
Proof.
  unfold DebugUnset.
  destruct (String.eqb (name_arg name) " "); [reflexivity|].
  unfold try_except, del_vars, bnd, get, put, raise, ret.
  destruct (__vars g !! name_arg name) eqn:E; simpl; [reflexivity|].
  symmetry. now apply delete_id.
Qed.

Lemma run_cmd_vars (c : cmd) (g : globals) :
  __vars (run_cmd c g) =
  match c with
  | CallDebug _ => __vars g
  | CallDebugSet n => <[name_arg n := name_arg n]> (__vars g)
  | CallDebugUnset n =>
      if String.eqb (name_arg n) " " then ∅ else delete (name_arg n) (__vars g)
  end.
Proof.
  destruct c as [n|n|n]; simpl; unfold state_after.
  - reflexivity.
  - apply DebugSet_vars.
  - apply DebugUnset_vars.
Qed.

Lemma run_cmds_cons (c : cmd) (cs : list cmd) (g : globals) :
  run_cmds (c :: cs) g = run_cmds cs (run_cmd c g).
Proof. reflexivity. Qed.

(** A word that is set stays set until an unset of it or of everything. *)
Lemma set_word_stays (w : string) (cs : list cmd) :
  forall g : globals,
    forallb (fun c => negb (unsets w c)) cs = true ->
    is_Some (__vars g !! w) ->
    is_Some (__vars (run_cmds cs g) !! w).
Proof.
  induction cs as [|c cs IH]; intros g Hcs Hw; [exact Hw|].
  simpl in Hcs. apply andb_true_iff in Hcs as [Hc Hcs].
  rewrite run_cmds_cons. apply IH; [exact Hcs|].
  rewrite run_cmd_vars. destruct c as [n|n|n]; simpl in Hc.
  - exact Hw.
  - destruct (decide (name_arg n = w)) as [->|Hne].
    + rewrite lookup_insert_eq. eauto.
    + rewrite lookup_insert_ne by exact Hne. exact Hw.
  - apply negb_true_iff, orb_false_elim in Hc as [Hn Hsp].
    rewrite Hsp. apply String.eqb_neq in Hn.
    rewrite lookup_delete_ne by exact Hn. exact Hw.
Qed.

(** A word that is not set stays so until it is set. *)
Lemma unset_word_stays (w : string) (cs : list cmd) :
  forall g : globals,
    forallb (fun c => negb (sets w c)) cs = true ->
    __vars g !! w = None ->
    __vars (run_cmds cs g) !! w = None.
Proof.
  induction cs as [|c cs IH]; intros g Hcs Hw; [exact Hw|].
  simpl in Hcs. apply andb_true_iff in Hcs as [Hc Hcs].
  rewrite run_cmds_cons. apply IH; [exact Hcs|].
  rewrite run_cmd_vars. destruct c as [n|n|n]; simpl in Hc.
  - exact Hw.
  - apply negb_true_iff, String.eqb_neq in Hc.
    rewrite lookup_insert_ne by exact Hc. exact Hw.
  - destruct (String.eqb (name_arg n) " "); [apply lookup_empty|].
    apply lookup_delete_None. now right.
Qed.

(** With no word set, none is until a [DebugSet]. *)
Lemma cleared_stays (cs : list cmd) :
  forall g : globals,
    forallb (fun c => negb (is_set c)) cs = true ->
    __vars g = ∅ ->
    __vars (run_cmds cs g) = ∅.
Proof.
  induction cs as [|c cs IH]; intros g Hcs Hw; [exact Hw|].
  simpl in Hcs. apply andb_true_iff in Hcs as [Hc Hcs].
  rewrite run_cmds_cons. apply IH; [exact Hcs|].
  rewrite run_cmd_vars. destruct c as [n|n|n]; simpl in Hc.
  - exact Hw.
  - discriminate Hc.
  - destruct (String.eqb (name_arg n) " "); [reflexivity|].
    rewrite Hw. apply delete_empty.
Qed.

(** C10: after [DebugSet(w)], [Debug(w)] returns [True] after any calls
    that hold no [DebugUnset(w)] and no [DebugUnset()]; after
    [DebugUnset(w)], [Debug(w)] returns [False] after any calls that hold
    no [DebugSet(w)]; and after [DebugUnset()], [Debug] returns [False] for
    every word and for no word, after any calls that hold no [DebugSet].
    An absent argument is [None]; [Debug] itself never changes the state. *)
Theorem debug_set_unset_roundtrip :
  (forall (g : globals) (w : option string) (cs : list cmd),
     forallb (fun c => negb (unsets (name_arg w) c)) cs = true ->
     fst (Debug w (run_cmds cs (snd (DebugSet w g)))) = Val true)
  /\ (forall (g : globals) (w : option string) (cs : list cmd),
        forallb (fun c => negb (sets (name_arg w) c)) cs = true ->
        fst (Debug w (run_cmds cs (snd (DebugUnset w g)))) = Val false)
  /\ (forall (g : globals) (w : option string) (cs : list cmd),
        forallb (fun c => negb (is_set c)) cs = true ->
        fst (Debug w (run_cmds cs (snd (DebugUnset None g)))) = Val false)
  /\ (forall (g : globals) (w : option string), snd (Debug w g) = g).
Proof.
  split; [|split; [|split]].
  - intros g w cs Hcs. rewrite Debug_result. cbn [fst]. f_equal.
    apply bool_decide_eq_true.
    apply (set_word_stays _ cs _ Hcs).
    rewrite DebugSet_vars, lookup_insert_eq. eauto.
  - intros g w cs Hcs. rewrite Debug_result. cbn [fst]. f_equal.
    apply bool_decide_eq_false. rewrite <- eq_None_not_Some.
    apply (unset_word_stays _ cs _ Hcs).
    rewrite DebugUnset_vars.
    destruct (String.eqb (name_arg w) " "); [apply lookup_empty|].
    apply lookup_delete_eq.
  - intros g w cs Hcs. rewrite Debug_result. cbn [fst]. f_equal.
    apply bool_decide_eq_false. rewrite <- eq_None_not_Some.
    rewrite (cleared_stays cs _ Hcs); [apply lookup_empty|].
    rewrite DebugUnset_vars. reflexivity.
  - reflexivity.
Qed.

Lemma debug_set_unset_roundtrip_witness :
  (forallb (fun c => negb (unsets (name_arg (Some "bar")) c))
     [CallDebug (Some "bar"); CallDebugUnset (Some "foo"); CallDebugSet None] = true
   /\ fst (Debug (Some "bar")
             (run_cmds [CallDebug (Some "bar"); CallDebugUnset (Some "foo");
                        CallDebugSet None]
                (snd (DebugSet (Some "bar") (module_init (Some "foo foobar"))))))
      = Val true)
  /\ (forallb (fun c => negb (sets (name_arg (Some "foo")) c))
        [CallDebugSet (Some "bar"); CallDebug (Some "foo")] = true
      /\ fst (Debug (Some "foo")
                (run_cmds [CallDebugSet (Some "bar"); CallDebug (Some "foo")]
                   (snd (DebugUnset (Some "foo") (module_init (Some "foo foobar"))))))
         = Val false)
  /\ (forallb (fun c => negb (is_set c))
        [CallDebug None; CallDebugUnset (Some "foo")] = true
      /\ fst (Debug (Some "foobar")
                (run_cmds [CallDebug None; CallDebugUnset (Some "foo")]
                   (snd (DebugUnset None (module_init (Some "foo foobar"))))))
         = Val false).
Proof.
  split; [|split].
  - split; [reflexivity|].
    exact (proj1 debug_set_unset_roundtrip (module_init (Some "foo foobar"))
             (Some "bar")
             [CallDebug (Some "bar"); CallDebugUnset (Some "foo"); CallDebugSet None]
             eq_refl).
  - split; [reflexivity|].
    exact (proj1 (proj2 debug_set_unset_roundtrip) (module_init (Some "foo foobar"))
             (Some "foo") [CallDebugSet (Some "bar"); CallDebug (Some "foo")] eq_refl).
  - split; [reflexivity|].
    exact (proj1 (proj2 (proj2 debug_set_unset_roundtrip))
             (module_init (Some "foo foobar")) (Some "foobar")
             [CallDebug None; CallDebugUnset (Some "foo")] eq_refl).
Defined.

(** The examples of the module's documentation. *)
Example Debug_without_DEBUG :
  fst (Debug None (module_init None)) = Val false
  /\ fst (Debug (Some "foo") (module_init None)) = Val false.
Proof. split; reflexivity. Qed.

Example Debug_with_DEBUG :
  fst (Debug None (module_init (Some "foo foobar"))) = Val true
  /\ fst (Debug (Some "foo") (module_init (Some "foo foobar"))) = Val true
  /\ fst (Debug (Some "bar") (module_init (Some "foo foobar"))) = Val false.
Proof. repeat split. Qed.

End DebugWords.

(** ** More on [bind], [unbind] and the base url *)

Section BindUnbind.

Import microhttpd.

Lemma Dispatch_eq (d1 d2 : Dispatch) :
  bindings d1 = bindings d2 -> default_attr d1 = default_attr d2 ->
  baseurl d1 = baseurl d2 -> d1 = d2.
Proof. destruct d1, d2; simpl; intros -> -> ->; reflexivity. Qed.

Lemma bind_state (self : Dispatch) (url : string) (meth : handler) (nt : note_t) :
  bind url meth nt self =
  (Val tt, set_bindings (<[url := {| method := meth; note := nt |}]> (bindings self)) self).
Proof. reflexivity. Qed.

Lemma unbind_state (self : Dispatch) (url : string) :
  unbind url self = (Val tt, set_bindings (delete url (bindings self)) self).
Proof.
  unfold unbind, try_except, delitem, bnd, get, put, raise, ret.
  destruct (bindings self !! url) eqn:E; simpl; [reflexivity|].
  f_equal. apply Dispatch_eq; simpl; try reflexivity.
  symmetry. now apply delete_id.
Qed.

(** X1: [unbind] never raises: on a path that is not bound the [KeyError]
    of the [del] is swallowed and the object is left exactly as it was. *)
Theorem unbind_absent_is_noop :
  (forall (self : Dispatch) (url : string), fst (unbind url self) = Val tt)
  /\ (forall (self : Dispatch) (url : string),
        bindings self !! url = None -> unbind url self = (Val tt, self)).
Proof.
  split; intros self url.
  - rewrite unbind_state. reflexivity.
  - intros H. rewrite unbind_state. f_equal.
    apply Dispatch_eq; simpl; try reflexivity. now apply delete_id.
Qed.

Lemma unbind_absent_is_noop_witness :
  bindings main_table !! "/nowhere" = None
  /\ unbind "/nowhere" main_table = (Val tt, main_table).
Proof.
  split; [reflexivity|].
  exact (proj2 unbind_absent_is_noop main_table "/nowhere" eq_refl).
Defined.

(** X2: [bind] followed by [unbind] of the same path, on a path that was
    not bound before, gives back the object as it was, so every later
    [call] behaves as if the path had never been bound.  (On a path that
    was bound, the earlier binding is gone after the two calls.) *)
Theorem bind_unbind_roundtrip :
  forall (self : Dispatch) (url : string) (meth : handler) (nt : note_t),
    bindings self !! url = None ->
    snd (unbind url (snd (bind url meth nt self))) = self
    /\ forall (fuel : nat) (u type data : string),
         call fuel u type data (snd (unbind url (snd (bind url meth nt self))))
         = call fuel u type data self.
Proof.
  intros self url meth nt H.
  assert (snd (unbind url (snd (bind url meth nt self))) = self) as Heq.
  { rewrite bind_state, unbind_state. simpl.
    apply Dispatch_eq; simpl; try reflexivity.
    rewrite delete_insert_eq. now apply delete_id. }
  split; [exact Heq|]. intros. rewrite Heq. reflexivity.
Qed.

Lemma bind_unbind_roundtrip_witness :
  bindings main_table !! "/version" = None
  /\ snd (unbind "/version" (snd (bind "/version" echo (Some "1.0") main_table)))
     = main_table.
Proof.
  split; [reflexivity|].
  exact (proj1 (bind_unbind_roundtrip main_table "/version" echo (Some "1.0") eq_refl)).
Defined.

(** X3: binding a path again replaces its binding (the last [bind] wins,
    the first leaves no trace), and [bind]s of two different paths commute. *)
Theorem bind_overwrites_and_commutes :
  (forall (self : Dispatch) (url : string) (m1 m2 : handler) (n1 n2 : note_t),
     snd (bind url m2 n2 (snd (bind url m1 n1 self))) = snd (bind url m2 n2 self))
  /\ (forall (self : Dispatch) (u1 u2 : string) (m1 m2 : handler) (n1 n2 : note_t),
        u1 <> u2 ->
        snd (bind u2 m2 n2 (snd (bind u1 m1 n1 self)))
        = snd (bind u1 m1 n1 (snd (bind u2 m2 n2 self)))).
Proof.
  split.
  - intros. rewrite !bind_state. simpl.
    apply Dispatch_eq; simpl; try reflexivity. apply insert_insert_eq.
  - intros self u1 u2 m1 m2 n1 n2 Hne. rewrite !bind_state. simpl.
    apply Dispatch_eq; simpl; try reflexivity.
    apply insert_insert_ne. congruence.
Qed.

Lemma bind_overwrites_and_commutes_witness :
  "/a" <> "/b"
  /\ snd (bind "/b" echo None (snd (bind "/a" echo (Some "x") __init__)))
     = snd (bind "/a" echo (Some "x") (snd (bind "/b" echo None __init__))).
Proof.
  split; [discriminate|].
  exact (proj2 bind_overwrites_and_commutes __init__ "/a" "/b" echo echo (Some "x") None
           ltac:(discriminate)).
Defined.



End BindUnbind.

(** ** What a matched handler is given *)

Section Arguments.

Import microhttpd.

Lemma slice_from_append (p t : string) :
  Py.slice_from (String.length p) (p +:+ t) = t.
Proof. induction p as [|a p IH]; [destruct t; reflexivity | exact IH]. Qed.

Lemma append_empty_r (s : string) : s +:+ EmptyString = s.
Proof. induction s as [|a s IH]; [reflexivity|]. rewrite append_String, IH. reflexivity. Qed.

(** The two results of [strip_ext] put together give the path back, and
    the extension is empty or begins with a dot. *)
Lemma strip_ext_recombine (m : string) :
  (strip_ext m).1 +:+ (strip_ext m).2 = m
  /\ ((strip_ext m).2 = EmptyString \/ exists suf, (strip_ext m).2 = String "." suf).
Proof.
  rewrite strip_ext_test.
  destruct (Py.contains "." (Py.last_item (Py.split "/" m))) eqn:E; simpl.
  - destruct (dotted_last_segment m E) as (pre & suf & -> & Hsuf & _).
    unfold Py.rpartition. rewrite (cut_last_at "." pre suf Hsuf). simpl.
    split; [reflexivity | right; eauto].
  - split; [apply append_empty_r | now left].
Qed.

(** The url is the current path followed by a tail that is empty or begins
    with a dot, a slash or a question mark: this holds at loop entry and is
    kept by each iteration. *)
Lemma call_loop_partition (self s : Dispatch) (url type data : string) (fuel : nat) :
  String.eqb type "PUT" = false ->
  forall (m tail : string) (e : loop_exit),
    url = m +:+ tail ->
    boundary tail = true ->
    call_loop fuel url type data m self = (Val e, s) ->
    match e with
    | Return i =>
        inv_match i +:+ inv_ext i +:+ inv_rest i = url
        /\ boundary (inv_ext i +:+ inv_rest i) = true
    | LoopEnd => boundary url = true
    end.
Proof.
  intros Hput. induction fuel as [|fuel IH]; intros m tail e Hurl Htail H;
    [discriminate H|].
  rewrite call_loop_step in H.
  destruct m as [|a m'].
  { simpl in H. injection H as <- _. rewrite Hurl. exact Htail. }
  change (Nat.ltb 0 (String.length (String a m'))) with true in H. cbv iota in H.
  set (m := String a m') in *.
  destruct (strip_ext_recombine m) as [Hre Hext].
  destruct (bindings self !! (strip_ext m).1) as [b|].
  - injection H as <- _. unfold hit_of, rest_for; simpl. rewrite Hput; simpl.
    rewrite Hre, Hurl, slice_from_append.
    split.
    + rewrite <- Hre at 3. rewrite append_assoc'. reflexivity.
    + destruct Hext as [-> | [suf ->]]; [exact Htail | reflexivity].
  - set (k := (strip_ext m).1) in *. set (x := (strip_ext m).2) in *.
    unfold Py.rsplit1 in H.
    destruct (Py.cut_last "/" k) as [[l r]|] eqn:E; simpl in H.
    + apply cut_last_Some in E as [E _].
      apply (IH l (String "/" r +:+ x +:+ tail) e); [|reflexivity|exact H].
      rewrite Hurl, <- Hre, E, !append_assoc'. reflexivity.
    + apply (IH k (x +:+ tail) e); [| |exact H].
      * rewrite Hurl, <- Hre, append_assoc'. reflexivity.
      * destruct Hext as [-> | [suf ->]]; [exact Htail | reflexivity].
Qed.

(** The url is its working path followed by nothing or by the question
    mark and what follows it. *)
Lemma working_path_tail (url : string) :
  exists tail : string, url = working_path url +:+ tail /\ boundary tail = true.
Proof.
  unfold working_path, Py.rsplit1.
  destruct (Py.cut_last "?" url) as [[l r]|] eqn:E; simpl.
  - apply cut_last_Some in E as [-> _]. exists (String "?" r). split; reflexivity.
  - exists EmptyString. split; [symmetry; apply append_empty_r | reflexivity].
Qed.

(** X5: for a method other than PUT, the arguments of the call that
    [call] makes partition the url: [match + ext + rest] is the url,
    whichever binding is selected (a path's or the default's).  Nothing of
    the url is lost and nothing is passed twice. *)
Theorem call_arguments_partition_url :
  forall (self s : Dispatch) (url type data : string) (fuel : nat) (i : invocation),
    String.eqb type "PUT" = false ->
    call_select fuel url type data self = (Val (Some i), s) ->
    inv_match i +:+ inv_ext i +:+ inv_rest i = url.
Proof.
  intros self s url type data fuel i Hput H.
  rewrite call_select_loop in H.
  destruct (working_path_tail url) as (tail & Hurl & Htail).
  destruct (call_loop fuel url type data (working_path url) self) as [[[i'|]|e|] s'] eqn:E;
    try discriminate H.
  - injection H as -> _.
    exact (proj1 (call_loop_partition self s' url type data fuel Hput _ _ _ Hurl Htail E)).
  - injection H as Hf _. unfold fallback in Hf.
    destruct (bindings s' !! "default"); [|discriminate Hf].
    injection Hf as <-. simpl. unfold rest_for. rewrite Hput. reflexivity.
Qed.

Lemma call_arguments_partition_url_witness :
  String.eqb "GET" "PUT" = false
  /\ call_select 2 "/foo/bar.baz/x?y=1" "GET" "" main_table =
       (Val (Some (hit_of "/foo/bar.baz/x?y=1" "GET" ""
                     {| method := echo; note := Some "index" |} "/foo/bar" ".baz")),
        main_table)
  /\ "/foo/bar" +:+ ".baz" +:+ "/x?y=1" = "/foo/bar.baz/x?y=1".
Proof.
  split; [reflexivity|]. split; [reflexivity|].
  exact (call_arguments_partition_url main_table main_table "/foo/bar.baz/x?y=1"
           "GET" "" 2 _ eq_refl eq_refl).
Defined.

(** X6: only whole words match.  For a method other than PUT, what follows
    the matched path in the url ([ext + rest]) is empty or begins with a
    dot, a slash or a question mark: a binding at [/foo/bar] is never
    selected for [/foo/bartsimpson], whatever else the table holds. *)
Theorem match_ends_at_word_boundary :
  forall (self s : Dispatch) (url type data : string) (fuel : nat) (i : invocation),
    String.eqb type "PUT" = false ->
    call_select fuel url type data self = (Val (Some i), s) ->
    boundary (inv_ext i +:+ inv_rest i) = true.
Proof.
  intros self s url type data fuel i Hput H.
  rewrite call_select_loop in H.
  destruct (working_path_tail url) as (tail & Hurl & Htail).
  destruct (call_loop fuel url type data (working_path url) self) as [[[i'|]|e|] s'] eqn:E;
    try discriminate H.
  - injection H as -> _.
    exact (proj2 (call_loop_partition self s' url type data fuel Hput _ _ _ Hurl Htail E)).
  - pose proof (call_loop_partition self s' url type data fuel Hput _ _ _ Hurl Htail E)
      as Hb. simpl in Hb.
    injection H as Hf _. unfold fallback in Hf.
    destruct (bindings s' !! "default"); [|discriminate Hf].
    injection Hf as <-. simpl. unfold rest_for. rewrite Hput. exact Hb.
Qed.

Lemma match_ends_at_word_boundary_witness :
  String.eqb "GET" "PUT" = false
  /\ call_select 2 "/foo/bartsimpson" "GET" "" main_table =
       (Val (Some (hit_of "/foo/bartsimpson" "GET" ""
                     {| method := echo; note := Some "index" |} "/foo" "")),
        main_table)
  /\ boundary ("" +:+ "/bartsimpson") = true.
Proof.
  split; [reflexivity|]. split; [reflexivity|].
  exact (match_ends_at_word_boundary main_table main_table "/foo/bartsimpson"
           "GET" "" 2 _ eq_refl eq_refl).
Defined.

Lemma call_loop_selected (self s : Dispatch) (url type data : string) (fuel : nat)
    (i : invocation) :
  forall m : string,
    call_loop fuel url type data m self = (Val (Return i), s) ->
    exists b : binding,
      bindings self !! inv_match i = Some b
      /\ inv_method i = method b /\ inv_note i = note b
      /\ inv_type i = type
      /\ inv_rest i = rest_for type data
           (Py.slice_from (String.length (inv_match i +:+ inv_ext i)) url).
Proof.
  induction fuel as [|fuel IH]; intros m H; [discriminate H|].
  rewrite call_loop_step in H.
  destruct (Nat.ltb 0 (String.length m)); [|discriminate H].
  destruct (bindings self !! (strip_ext m).1) as [b|] eqn:Hb.
  - injection H as <- _. exists b. simpl. repeat split. exact Hb.
  - exact (IH _ H).
Qed.

(** X7: the function called is always one the table holds.  A selected
    call has the method and the note of the table's entry at the matched
    path, or of the entry at ["default"] when the matched path is empty and
    no binding sits at the empty path; the request's method is passed on
    unchanged; and for a PUT the [rest] argument is the [data] given to
    [call], never a part of the url. *)
Theorem selected_call_comes_from_table :
  forall (self s : Dispatch) (url type data : string) (fuel : nat) (i : invocation),
    call_select fuel url type data self = (Val (Some i), s) ->
    (exists (k : string) (b : binding),
        (k = inv_match i \/ (k = "default" /\ inv_match i = "" /\ inv_ext i = ""))
        /\ bindings self !! k = Some b
        /\ inv_method i = method b /\ inv_note i = note b)
    /\ inv_type i = type
    /\ (type = "PUT" -> inv_rest i = data).
Proof.
  intros self s url type data fuel i H.
  rewrite call_select_loop in H.
  pose proof (call_loop_state url type data fuel (working_path url) self) as Hst.
  destruct (call_loop fuel url type data (working_path url) self) as [[[i'|]|e|] s'] eqn:E;
    try discriminate H; simpl in Hst; subst s'.
  - injection H as -> _.
    destruct (call_loop_selected self self url type data fuel i _ E)
      as (b & Hb & Hm & Hn & Ht & Hr).
    split; [exists (inv_match i), b; auto|]. split; [exact Ht|].
    intros ->. rewrite Hr. reflexivity.
  - injection H as Hf _. unfold fallback in Hf.
    destruct (bindings self !! "default") as [b|] eqn:Hb; [|discriminate Hf].
    injection Hf as <-. simpl.
    split; [exists "default", b; auto|]. split; [reflexivity|].
    intros ->. reflexivity.
Qed.

Lemma selected_call_comes_from_table_witness :
  call_select 2 "/foo/bar/baz" "PUT" "payload" main_table =
    (Val (Some (hit_of "/foo/bar/baz" "PUT" "payload"
                  {| method := echo; note := Some "index" |} "/foo/bar" "")), main_table)
  /\ inv_rest (hit_of "/foo/bar/baz" "PUT" "payload"
                 {| method := echo; note := Some "index" |} "/foo/bar" "") = "payload".
Proof.
  split; [reflexivity|].
  exact (proj2 (proj2 (selected_call_comes_from_table main_table main_table
                         "/foo/bar/baz" "PUT" "payload" 2 _ eq_refl)) eq_refl).
Defined.

End Arguments.

(** ** The most specific binding *)

Section MostSpecific.

Import microhttpd.

Lemma cut_last_app_sep (c : ascii) (s r : string) :
  Py.cut_last c (s +:+ String c r) =
  match Py.cut_last c r with
  | Some (a, b) => Some (s +:+ String c a, b)
  | None => Some (s, r)
  end.
Proof.
  induction s as [|x s IH].
  - simpl. destruct (Py.cut_last c r) as [[a b]|]; [reflexivity|].
    rewrite Ascii.eqb_refl. reflexivity.
  - rewrite append_String. simpl. rewrite IH.
    destruct (Py.cut_last c r) as [[a b]|]; reflexivity.
Qed.

Lemma segment_prefix_nonempty (k m : string) :
  k <> EmptyString -> segment_prefix k m -> m <> EmptyString.
Proof.
  intros Hk [->|[r ->]]; [exact Hk|]. destruct k; [congruence | discriminate].
Qed.

Lemma segment_prefix_step (x m' m r : string) :
  segment_prefix x m' -> m = m' +:+ String "/" r -> segment_prefix x m.
Proof.
  intros [->|[r' ->]] ->; right; [eauto|].
  exists (r' +:+ String "/" r). rewrite append_assoc', append_String. reflexivity.
Qed.

(** From a path without a dot of which the bound path [k] is a segment
    prefix, the loop returns a hit at [k] or at a longer segment prefix. *)
Lemma call_loop_most_specific (self : Dispatch) (url type data k : string) (n : nat) :
  k <> EmptyString ->
  is_Some (bindings self !! k) ->
  forall m : string,
    String.length m <= n ->
    Py.contains "." m = false ->
    segment_prefix k m ->
    exists i : invocation,
      (forall fuel : nat, String.length m < fuel ->
         call_loop fuel url type data m self = (Val (Return i), self))
      /\ segment_prefix k (inv_match i)
      /\ segment_prefix (inv_match i) m
      /\ inv_ext i = EmptyString.
Proof.
  intros Hk Hbound. induction n as [|n IH]; intros m Hlen Hdot Hseg;
    pose proof (segment_prefix_nonempty k m Hk Hseg) as Hm.
  { destruct m; [congruence | simpl in Hlen; lia]. }
  pose proof (strip_ext_no_dot m Hdot) as Hstrip.
  destruct (bindings self !! m) as [b|] eqn:Hb.
  - exists (hit_of url type data b m EmptyString). split; [|split; [|split]].
    + intros [|fuel] Hf; [lia|]. now apply call_loop_hit.
    + exact Hseg.
    + now left.
    + reflexivity.
  - destruct Hseg as [->|[r ->]].
    { rewrite Hb in Hbound. destruct Hbound as [? ?]. discriminate. }
    pose proof (cut_last_app_sep "/" k r) as Hcut.
    assert (exists l r', Py.cut_last "/" (k +:+ String "/" r) = Some (l, r')
                         /\ segment_prefix k l) as (l & r' & Hl & Hkl).
    { destruct (Py.cut_last "/" r) as [[a b0]|]; eexists _, _; (split; [exact Hcut|]).
      - right. eauto.
      - now left. }
    pose proof (cut_last_shorter _ _ _ _ Hl) as Hshort.
    pose proof (cut_last_Some _ _ _ _ Hl) as [Heq _].
    assert (Py.item0 (Py.rsplit1 "/" (k +:+ String "/" r)) = l) as Htr
      by (unfold Py.rsplit1; rewrite Hl; reflexivity).
    destruct (IH l) as (i & Hi & H1 & H2 & H3); [lia | | exact Hkl |].
    { rewrite <- Htr. now apply contains_truncation. }
    exists i. split; [|split; [|split]]; try assumption.
    + intros [|fuel] Hf; [lia|].
      rewrite (call_loop_miss url type data fuel _ _ _ self Hm Hstrip Hb), Htr.
      apply Hi. lia.
    + exact (segment_prefix_step _ _ _ _ H2 Heq).
Qed.

(** X8: the most specific binding wins.  When the working path holds no
    dot and a non-empty path [k] that is bound is the working path itself
    or the working path cut at one of its slashes, [call] returns (with
    fuel beyond the length of the working path) the call of a binding
    whose path is [k] or a longer such prefix, with an empty extension:
    a binding at [/foo/bar] takes everything under [/foo/bar] from a
    binding at [/foo], and neither the default binding nor the not-found
    dictionary is reached. *)
Theorem most_specific_binding_wins :
  forall (self : Dispatch) (url type data k : string),
    Py.contains "." (working_path url) = false ->
    k <> "" ->
    is_Some (bindings self !! k) ->
    segment_prefix k (working_path url) ->
    exists i : invocation,
      (forall fuel : nat, String.length (working_path url) < fuel ->
         call_select fuel url type data self = (Val (Some i), self))
      /\ is_Some (bindings self !! inv_match i)
      /\ segment_prefix k (inv_match i)
      /\ segment_prefix (inv_match i) (working_path url)
      /\ inv_ext i = "".
Proof.
  intros self url type data k Hdot Hk Hbound Hseg.
  destruct (call_loop_most_specific self url type data k _ Hk Hbound
              (working_path url) (Nat.le_refl _) Hdot Hseg) as (i & Hi & H1 & H2 & H3).
  exists i. split; [|split; [|repeat split; assumption]].
  - intros fuel Hf. rewrite call_select_loop, (Hi fuel Hf). reflexivity.
  - destruct (call_loop_selected self self url type data _ i _
                (Hi (S (String.length (working_path url))) (Nat.lt_succ_diag_r _)))
      as (b & Hb & _). eauto.
Qed.

Lemma most_specific_binding_wins_witness :
  Py.contains "." (working_path "/foo/bar/baz/qux?x=1") = false
  /\ "/foo" <> ""
  /\ is_Some (bindings main_table !! "/foo")
  /\ segment_prefix "/foo" (working_path "/foo/bar/baz/qux?x=1")
  /\ exists i : invocation,
       call_select 17 "/foo/bar/baz/qux?x=1" "GET" "" main_table = (Val (Some i), main_table)
       /\ segment_prefix "/foo" (inv_match i).
Proof.
  assert ("/foo" <> "") as Hne by discriminate.
  assert (is_Some (bindings main_table !! "/foo")) as Hb by (eexists; reflexivity).
  assert (segment_prefix "/foo" (working_path "/foo/bar/baz/qux?x=1")) as Hs
    by (right; exists "bar/baz/qux"; reflexivity).
  split; [reflexivity|]. split; [exact Hne|]. split; [exact Hb|]. split; [exact Hs|].
  destruct (most_specific_binding_wins main_table "/foo/bar/baz/qux?x=1" "GET" "" "/foo"
              eq_refl Hne Hb Hs) as (i & Hi & _ & Hk & _).
  exists i. split; [apply Hi; simpl; lia | exact Hk].
Defined.

(** X9: the root is no catch-all.  For a working path of one segment, [/]
    followed by a text without a slash, the loop makes a single lookup, at
    the path with its extension cut off, and then [call] goes to the
    default binding or the not-found dictionary: among these urls a
    binding at [/] is reached from [/] and [/.ext] only, never from
    [/test]. *)
Theorem one_segment_path_single_lookup :
  forall (self : Dispatch) (url type data t : string) (fuel : nat),
    working_path url = "/" +:+ t ->
    Py.contains "/" t = false ->
    call_select (2 + fuel) url type data self =
      (Val match bindings self !! (strip_ext (working_path url)).1 with
           | Some b => Some (hit_of url type data b (strip_ext (working_path url)).1
                               (strip_ext (working_path url)).2)
           | None => fallback url type data self
           end, self)
    /\ (t <> "" -> Py.contains "." t = false ->
        (strip_ext (working_path url)).1 <> "/").
Proof.
  intros self url type data t fuel Hw Ht.
  change ("/" +:+ t) with (EmptyString +:+ String "/" t) in Hw.
  destruct (strip_ext_last_segment EmptyString t Ht) as (seg' & Hs & Hseg').
  split.
  - rewrite call_select_loop. change (2 + fuel) with (S (S fuel)).
    rewrite call_loop_step, Hw. change (Nat.ltb 0 _) with true. cbv iota.
    destruct (bindings self !! _) as [b|] eqn:Hb; [reflexivity|].
    rewrite Hs. unfold Py.rsplit1. rewrite (cut_last_at "/" EmptyString seg' Hseg').
    reflexivity.
  - intros Hne Hdot. rewrite Hw.
    rewrite strip_ext_no_dot by exact Hdot. simpl.
    intros H. injection H as H. congruence.
Qed.

Lemma one_segment_path_single_lookup_witness :
  working_path "/test?foo" = "/" +:+ "test"
  /\ Py.contains "/" "test" = false
  /\ call_select 2 "/test?foo" "GET" "" main_table = (Val None, main_table).
Proof.
  split; [reflexivity|]. split; [reflexivity|].
  exact (proj1 (one_segment_path_single_lookup main_table "/test?foo" "GET" "" "test" 0
                  eq_refl eq_refl)).
Defined.

End MostSpecific.

(** ** The request handler: what is written, and what is kept *)

Section Responses.

Import microhttpd.

Variable responses : Z -> option string.

Lemma only_writes_ret {A : Type} (a : A) : only_writes (ret a).
Proof. intros st. simpl. repeat split. exists []. now rewrite app_nil_r. Qed.

Lemma only_writes_raise {A : Type} (e : exn) : only_writes (@raise _ A e).
Proof. intros st. simpl. repeat split. exists []. now rewrite app_nil_r. Qed.

Lemma only_writes_bnd {A B : Type} (m : M server_state A) (k : A -> M server_state B) :
  only_writes m -> (forall a, only_writes (k a)) -> only_writes (bnd m k).
Proof.
  intros Hm Hk st. unfold bnd. specialize (Hm st).
  destruct (m st) as [[a|e|] st1]; simpl in Hm; try exact Hm.
  destruct Hm as (Hd & Hs & evs & Hw).
  destruct (Hk a st1) as (Hd2 & Hs2 & evs2 & Hw2).
  split; [congruence|]. split; [congruence|].
  exists (evs ++ evs2)%list. rewrite Hw2, Hw, app_assoc. reflexivity.
Qed.

Lemma only_writes_emit (e : event) : only_writes (emit e).
Proof. intros st. simpl. repeat split. eauto. Qed.

Lemma only_writes_responses_item (code : Z) : only_writes (responses_item responses code).
Proof.
  unfold responses_item. destruct (responses code);
    [apply only_writes_ret | apply only_writes_raise].
Qed.

Lemma only_writes_send_headers (hs : list (string * header_value)) :
  only_writes (send_headers hs).
Proof.
  induction hs as [|h hs IH]; simpl; [apply only_writes_ret|].
  apply only_writes_bnd; [apply only_writes_emit | intros _; exact IH].
Qed.

Lemma only_writes_call (fuel : nat) (url type data : string) :
  only_writes (on_dispatch (call fuel url type data)).
Proof.
  intros st. unfold on_dispatch, zoom.
  pose proof (call_state (dispatch st) url type data fuel) as Hs.
  destruct (call fuel url type data (dispatch st)) as [o d]. simpl in *. subst d.
  repeat split. exists []. now rewrite app_nil_r.
Qed.

(** X10: whatever a request does (answer, hand over, raise, or never
    return), [do_all] adds one to [serial] exactly once, leaves the
    [Dispatch] object as it was, and never takes back what was already
    written to the connection. *)
Theorem do_all_invariants :
  forall (fuel : nat) (req : request) (type : string) (st : server_state),
    dispatch (snd (do_all responses fuel req type st)) = dispatch st
    /\ serial (snd (do_all responses fuel req type st)) = (serial st + 1)%Z
    /\ exists evs : list event,
         wire (snd (do_all responses fuel req type st)) = (wire st ++ evs)%list.
Proof.
  intros fuel req type st.
  assert (forall A (k : M server_state A), only_writes k ->
            dispatch (snd (bnd incr_serial (fun _ => k) st)) = dispatch st
            /\ serial (snd (bnd incr_serial (fun _ => k) st)) = (serial st + 1)%Z
            /\ exists evs, wire (snd (bnd incr_serial (fun _ => k) st))
                           = (wire st ++ evs)%list) as Hgen.
  { intros A k Hk. unfold bnd, incr_serial, get, put. simpl.
    exact (Hk {| dispatch := dispatch st; serial := (serial st + 1)%Z;
                 wire := wire st |}). }
  apply Hgen.
  apply only_writes_bnd.
  { destruct (String.eqb type "PUT"); [|apply only_writes_ret].
    apply only_writes_bnd; [apply only_writes_responses_item|]. intros msg.
    apply only_writes_bnd; [apply only_writes_emit | intros; apply only_writes_ret]. }
  intros data. apply only_writes_bnd; [apply only_writes_call|]. intros result.
  cbv zeta. destruct (is_NOT_FOUND _); [apply only_writes_ret|].
  apply only_writes_bnd.
  { destruct (Z.leb _ _);
      (apply only_writes_bnd; [apply only_writes_responses_item
                              | intros; apply only_writes_emit]). }
  intros _. apply only_writes_bnd; [apply only_writes_send_headers|]. intros _.
  apply only_writes_bnd; [apply only_writes_emit|]. intros _.
  apply only_writes_bnd.
  { destruct (resp_r _); [apply only_writes_emit | apply only_writes_ret]. }
  intros _. apply only_writes_bnd; [apply only_writes_emit | intros; apply only_writes_ret].
Qed.

Lemma send_headers_wire (hs : list (string * header_value)) (st : server_state) :
  send_headers hs st =
  (Val tt, {| dispatch := dispatch st; serial := serial st;
              wire := (wire st ++ List.map (fun h => send_header h.1 h.2) hs)%list |}).
Proof.
  revert st. induction hs as [|h hs IH]; intros st.
  - simpl. rewrite app_nil_r. destruct st; reflexivity.
  - simpl. unfold bnd, emit, get, put. simpl. rewrite IH. simpl.
    rewrite <- app_assoc. reflexivity.
Qed.

(** What [do_all] does after the dispatcher has answered [resp], from the
    state [st1] it is in then. *)
Lemma do_all_from_call (fuel : nat) (req : request) (type : string) (st : server_state)
    (resp : response) (pre : list event) :
  call fuel (path req) type (if String.eqb type "PUT" then put_data req else EmptyString)
    (dispatch st) = (Val resp, dispatch st) ->
  (if String.eqb type "PUT"
   then exists m, responses CONTINUE = Some m /\ pre = [send_response CONTINUE m]
   else pre = []) ->
  do_all responses fuel req type st =
  let st1 := {| dispatch := dispatch st; serial := (serial st + 1)%Z;
                wire := (wire st ++ pre)%list |} in
  match default (Int OK) (resp_c resp) with
  | NOT_FOUND => (Val RNone, st1)
  | Int z =>
      match responses z with
      | Some msg =>
          (Val RTrue, {| dispatch := dispatch st; serial := (serial st + 1)%Z;
                         wire := (wire st1 ++ response_events z msg resp)%list |})
      | None => (Raised (KeyError "responses"), st1)
      end
  end.
Proof.
  intros Hcall Hpre. unfold do_all.
  assert (forall (z : Z) (st1 : server_state),
            (if is_NOT_FOUND (Int z) then ret RNone else
               (if Z.leb BAD_REQUEST z
                then msg <- responses_item responses z ;; emit (send_error z msg)
                else msg <- responses_item responses z ;; emit (send_response z msg)) ;;;
               send_headers
                 match resp_h resp with
                 | None => [("Content-Length",
                             HInt match resp_r resp with
                                  | Some body => Z.of_nat (String.length body)
                                  | None => 0%Z
                                  end)]
                 | Some hs => (hs ++ [("Content-Length",
                                       HInt match resp_r resp with
                                            | Some body => Z.of_nat (String.length body)
                                            | None => 0%Z
                                            end)])%list
                 end ;;;
               emit end_headers ;;;
               match resp_r resp with
               | Some body => emit (wfile_write body)
               | None => ret tt
               end ;;;
               emit connection_close ;;;
               ret RTrue) st1
            = match responses z with
              | Some msg =>
                  (Val RTrue, {| dispatch := dispatch st1; serial := serial st1;
                                 wire := (wire st1 ++ response_events z msg resp)%list |})
              | None => (Raised (KeyError "responses"), st1)
              end) as Htail.
  { intros z st1. simpl. unfold response_events. change 400%Z with BAD_REQUEST.
    unfold responses_item.
    destruct (responses z) as [msg|]; destruct (Z.leb BAD_REQUEST z);
      cbv beta iota delta [bnd ret raise emit get put]; simpl; try reflexivity;
      rewrite send_headers_wire; simpl;
      destruct (resp_r resp), (resp_h resp); simpl;
      rewrite <- ?app_assoc; reflexivity. }
  destruct (String.eqb type "PUT").
  - destruct Hpre as (m & Hm & ->).
    cbv beta iota delta [bnd incr_serial get put ret on_dispatch zoom responses_item emit].
    rewrite Hm. simpl. rewrite Hcall. simpl.
    destruct (resp_c resp) as [[|z]|]; simpl; try reflexivity.
    + refine (eq_trans (Htail z {| dispatch := dispatch st; serial := (serial st + 1)%Z;
                                   wire := (wire st ++ [send_response CONTINUE m])%list |}) _).
      destruct (responses z); reflexivity.
    + refine (eq_trans (Htail OK {| dispatch := dispatch st; serial := (serial st + 1)%Z;
                                    wire := (wire st ++ [send_response CONTINUE m])%list |}) _).
      destruct (responses OK); reflexivity.
  - subst pre.
    cbv beta iota delta [bnd incr_serial get put ret on_dispatch zoom responses_item emit].
    simpl. rewrite Hcall. simpl. rewrite app_nil_r.
    destruct (resp_c resp) as [[|z]|]; simpl; try reflexivity.
    + refine (eq_trans (Htail z {| dispatch := dispatch st; serial := (serial st + 1)%Z;
                                   wire := wire st |}) _).
      destruct (responses z); reflexivity.
    + refine (eq_trans (Htail OK {| dispatch := dispatch st; serial := (serial st + 1)%Z;
                                    wire := wire st |}) _).
      destruct (responses OK); reflexivity.
Qed.

(** X11: a complete response.  For a method other than PUT, when the
    dispatcher's result carries a status other than the object
    [httplib.NOT_FOUND] (200 when the handler gave none) and that status has
    a reason phrase, [do_all] writes, in this order and nothing else: the
    status line ([send_error] for a code of 400 or more, [send_response]
    below), the handler's headers in their order, a [Content-Length] header
    with the length of the body (0 without a body), the end of the headers,
    the body when there is one, and the close of the connection; it returns
    [True]. *)
Theorem do_all_writes_response :
  forall (fuel : nat) (req : request) (type : string) (st : server_state)
         (resp : response) (z : Z) (msg : string),
    String.eqb type "PUT" = false ->
    call fuel (path req) type "" (dispatch st) = (Val resp, dispatch st) ->
    default (Int OK) (resp_c resp) = Int z ->
    responses z = Some msg ->
    do_all responses fuel req type st =
      (Val RTrue, {| dispatch := dispatch st; serial := (serial st + 1)%Z;
                     wire := (wire st ++ response_events z msg resp)%list |}).
Proof.
  intros fuel req type st resp z msg Hput Hcall Hc Hz.
  pose proof (do_all_from_call fuel req type st resp []) as Hall.
  rewrite Hput in Hall. rewrite (Hall Hcall eq_refl).
  cbv zeta. rewrite Hc, Hz. simpl. rewrite app_nil_r. reflexivity.
Qed.

(** X12: a status without a reason phrase.  When the handler's status code
    has no entry in [httplib.responses], the subscript raises [KeyError]
    before the status line: for a method other than PUT nothing is written
    to the connection, which is not closed either. *)
Theorem do_all_unknown_status_raises :
  forall (fuel : nat) (req : request) (type : string) (st : server_state)
         (resp : response) (z : Z),
    String.eqb type "PUT" = false ->
    call fuel (path req) type "" (dispatch st) = (Val resp, dispatch st) ->
    default (Int OK) (resp_c resp) = Int z ->
    responses z = None ->
    do_all responses fuel req type st =
      (Raised (KeyError "responses"),
       {| dispatch := dispatch st; serial := (serial st + 1)%Z; wire := wire st |}).
Proof.
  intros fuel req type st resp z Hput Hcall Hc Hz.
  pose proof (do_all_from_call fuel req type st resp []) as Hall.
  rewrite Hput in Hall. rewrite (Hall Hcall eq_refl).
  cbv zeta. rewrite Hc, Hz. simpl. rewrite app_nil_r. reflexivity.
Qed.

(** X13: a PUT.  The interim response [100 Continue] is written before the
    dispatcher is called, and the dispatcher is given the data read from
    the request.  On a result with a status that has a reason phrase the
    complete response follows; on a not-found result nothing follows: the
    client has the interim response only. *)
Theorem do_PUT_continue_first :
  forall (fuel : nat) (req : request) (st : server_state) (resp : response) (m : string),
    responses CONTINUE = Some m ->
    call fuel (path req) "PUT" (put_data req) (dispatch st) = (Val resp, dispatch st) ->
    (resp_c resp = Some NOT_FOUND ->
     do_PUT responses fuel req st =
       (Val tt, {| dispatch := dispatch st; serial := (serial st + 1)%Z;
                   wire := (wire st ++ [send_response CONTINUE m])%list |}))
    /\ (forall (z : Z) (msg : string),
          default (Int OK) (resp_c resp) = Int z ->
          responses z = Some msg ->
          do_PUT responses fuel req st =
            (Val tt, {| dispatch := dispatch st; serial := (serial st + 1)%Z;
                        wire := (wire st ++ send_response CONTINUE m
                                          :: response_events z msg resp)%list |})).
Proof.
  intros fuel req st resp m Hm Hcall.
  pose proof (do_all_from_call fuel req "PUT" st resp [send_response CONTINUE m]
                Hcall (ex_intro _ m (conj Hm eq_refl))) as Hall.
  cbv zeta in Hall. unfold do_PUT, bnd. split.
  - intros Hc. rewrite Hall, Hc. reflexivity.
  - intros z msg Hc Hz. rewrite Hall, Hc, Hz. simpl.
    rewrite <- app_assoc. reflexivity.
Qed.

End Responses.

(** A table of reason phrases for the examples: three entries of
    [httplib.responses]. *)
Lemma do_all_writes_response_witness :
  let responses := fun z : Z =>
    if Z.eqb z 100 then Some "Continue"
    else if Z.eqb z 200 then Some "OK"
    else if Z.eqb z 404 then Some "Not Found" else None in
  let st := {| microhttpd.dispatch := microhttpd.main_table;
               microhttpd.serial := 0; microhttpd.wire := [] |} in
  let req := {| microhttpd.path := "/foo.txt?x"; microhttpd.put_data := "" |} in
  microhttpd.do_all responses 1 req "GET" st =
    (Val microhttpd.RTrue,
     {| microhttpd.dispatch := microhttpd.main_table; microhttpd.serial := 1;
        microhttpd.wire :=
          [microhttpd.send_response 200 "OK";
           microhttpd.send_header "Content-type" (microhttpd.HStr "text/plain");
           microhttpd.send_header "Content-Length" (microhttpd.HInt 54);
           microhttpd.end_headers;
           microhttpd.wfile_write
             "echo type:GET match:/foo ext:.txt rest:?x note:'index'";
           microhttpd.connection_close] |}).
Proof.
  exact (do_all_writes_response _ 1
           {| microhttpd.path := "/foo.txt?x"; microhttpd.put_data := "" |} "GET"
           {| microhttpd.dispatch := microhttpd.main_table;
              microhttpd.serial := 0; microhttpd.wire := [] |}
           (microhttpd.echo "GET" "/foo" ".txt" "?x" (Some "index")) 200 "OK"
           eq_refl eq_refl eq_refl eq_refl).
Defined.

Lemma do_all_unknown_status_raises_witness :
  microhttpd.do_all (fun z : Z => if Z.eqb z 200 then Some "OK" else None) 1
    {| microhttpd.path := "/odd"; microhttpd.put_data := "" |} "GET"
    {| microhttpd.dispatch :=
         snd (microhttpd.bind "/odd"
                (fun _ _ _ _ _ => {| microhttpd.resp_r := Some "odd";
                                     microhttpd.resp_c := Some (microhttpd.Int 299);
                                     microhttpd.resp_h := None |})
                None microhttpd.__init__);
       microhttpd.serial := 7; microhttpd.wire := [] |} =
  (Raised (KeyError "responses"),
   {| microhttpd.dispatch :=
        snd (microhttpd.bind "/odd"
               (fun _ _ _ _ _ => {| microhttpd.resp_r := Some "odd";
                                    microhttpd.resp_c := Some (microhttpd.Int 299);
                                    microhttpd.resp_h := None |})
               None microhttpd.__init__);
      microhttpd.serial := 8; microhttpd.wire := [] |}).
Proof.
  exact (do_all_unknown_status_raises _ 1
           {| microhttpd.path := "/odd"; microhttpd.put_data := "" |} "GET"
           {| microhttpd.dispatch :=
                snd (microhttpd.bind "/odd"
                       (fun _ _ _ _ _ => {| microhttpd.resp_r := Some "odd";
                                            microhttpd.resp_c := Some (microhttpd.Int 299);
                                            microhttpd.resp_h := None |})
                       None microhttpd.__init__);
              microhttpd.serial := 7; microhttpd.wire := [] |}
           {| microhttpd.resp_r := Some "odd";
              microhttpd.resp_c := Some (microhttpd.Int 299);
              microhttpd.resp_h := None |} 299
           eq_refl eq_refl eq_refl eq_refl).
Defined.

Lemma do_PUT_continue_first_witness :
  microhttpd.do_PUT
    (fun z : Z => if Z.eqb z 100 then Some "Continue"
                  else if Z.eqb z 200 then Some "OK" else None) 1
    {| microhttpd.path := "/foo"; microhttpd.put_data := "payload" |}
    {| microhttpd.dispatch := microhttpd.main_table;
       microhttpd.serial := 0; microhttpd.wire := [] |} =
  (Val tt,
   {| microhttpd.dispatch := microhttpd.main_table; microhttpd.serial := 1;
      microhttpd.wire :=
        [microhttpd.send_response 100 "Continue";
         microhttpd.send_response 200 "OK";
         microhttpd.send_header "Content-type" (microhttpd.HStr "text/plain");
         microhttpd.send_header "Content-Length" (microhttpd.HInt 55);
         microhttpd.end_headers;
         microhttpd.wfile_write
           "echo type:PUT match:/foo ext: rest:payload note:'index'";
         microhttpd.connection_close] |}).
Proof.
  exact (proj2 (do_PUT_continue_first _ 1
                  {| microhttpd.path := "/foo"; microhttpd.put_data := "payload" |}
                  {| microhttpd.dispatch := microhttpd.main_table;
                     microhttpd.serial := 0; microhttpd.wire := [] |}
                  (microhttpd.echo "PUT" "/foo" "" "payload" (Some "index"))
                  "Continue" eq_refl eq_refl) 200%Z "OK" eq_refl eq_refl).
Defined.

(** ** More on the debug words *)

Section DebugState.

Import debugging.

Lemma globals_eq (g1 g2 : globals) :
  __vars g1 = __vars g2 -> __debug g1 = __debug g2 -> g1 = g2.
Proof. destruct g1, g2; simpl; intros -> ->; reflexivity. Qed.

Lemma DebugUnset_result (name : option string) (g : globals) :
  fst (DebugUnset name g) = Val tt.
Proof.
  unfold DebugUnset.
  destruct (String.eqb (name_arg name) " "); [reflexivity|].
  unfold try_except, del_vars, bnd, get, put, raise, ret.
  destruct (__vars g !! name_arg name); reflexivity.
Qed.

Lemma DebugUnset_word_flag (name : option string) (g : globals) :
  String.eqb (name_arg name) " " = false ->
  __debug (snd (DebugUnset name g)) = __debug g.
Proof.
  intros H. unfold DebugUnset. rewrite H.
  unfold try_except, del_vars, bnd, get, put, raise, ret.
  destruct (__vars g !! name_arg name); reflexivity.
Qed.

(** X14: [DebugUnset] never raises.  For a word that is not set the
    [KeyError] of the [del] is swallowed and the state is left exactly as
    it was; unsetting twice is the same as unsetting once, and so is
    setting twice. *)
Theorem DebugUnset_never_raises :
  (forall (g : globals) (name : option string), fst (DebugUnset name g) = Val tt)
  /\ (forall (g : globals) (name : option string),
        name_arg name <> " " ->
        __vars g !! name_arg name = None ->
        DebugUnset name g = (Val tt, g))
  /\ (forall (g : globals) (name : option string),
        snd (DebugUnset name (snd (DebugUnset name g))) = snd (DebugUnset name g))
  /\ (forall (g : globals) (name : option string),
        snd (DebugSet name (snd (DebugSet name g))) = snd (DebugSet name g)).
Proof.
  split; [intros; apply DebugUnset_result|]. split; [|split].
  - intros g name Hne Habs.
    rewrite (surjective_pairing (DebugUnset name g)), DebugUnset_result. f_equal.
    apply String.eqb_neq in Hne.
    apply globals_eq; [|now apply DebugUnset_word_flag].
    rewrite DebugUnset_vars, Hne. now apply delete_id.
  - intros g name. destruct (String.eqb (name_arg name) " ") eqn:E.
    + unfold DebugUnset. rewrite E. reflexivity.
    + apply globals_eq; [|now rewrite !DebugUnset_word_flag].
      rewrite !DebugUnset_vars, E. apply delete_id. apply lookup_delete_eq.
  - intros g name. apply globals_eq; [|reflexivity].
    rewrite !DebugSet_vars. apply insert_insert_eq.
Qed.

Lemma DebugUnset_never_raises_witness :
  name_arg (Some "bar") <> " "
  /\ __vars (module_init (Some "foo foobar")) !! name_arg (Some "bar") = None
  /\ DebugUnset (Some "bar") (module_init (Some "foo foobar"))
     = (Val tt, module_init (Some "foo foobar")).
Proof.
  assert (name_arg (Some "bar") <> " ") as Hne by discriminate.
  split; [exact Hne|]. split; [reflexivity|].
  exact (proj1 (proj2 DebugUnset_never_raises) (module_init (Some "foo foobar"))
           (Some "bar") Hne eq_refl).
Defined.

(** X15: the words are independent.  [DebugSet(n)] changes the answer of
    [Debug(v)] for no other word [v], and [DebugUnset(n)] with a word [n]
    changes it for no other word either; in particular setting a word does
    not make the bare [Debug()] true.  (Only the bare [DebugUnset()]
    reaches every word.) *)
Theorem debug_words_are_independent :
  forall (g : globals) (n v : option string),
    name_arg v <> name_arg n ->
    fst (Debug v (snd (DebugSet n g))) = fst (Debug v g)
    /\ (name_arg n <> " " ->
        fst (Debug v (snd (DebugUnset n g))) = fst (Debug v g)).
Proof.
  intros g n v Hne. split.
  - rewrite !Debug_result. cbn [fst].
    rewrite DebugSet_vars, lookup_insert_ne by congruence. reflexivity.
  - intros Hsp. apply String.eqb_neq in Hsp.
    rewrite !Debug_result. cbn [fst].
    rewrite DebugUnset_vars, Hsp, lookup_delete_ne by congruence. reflexivity.
Qed.

Lemma debug_words_are_independent_witness :
  name_arg None <> name_arg (Some "foo")
  /\ fst (Debug None (snd (DebugSet (Some "foo") (module_init None)))) = Val false.
Proof.
  assert (name_arg None <> name_arg (Some "foo")) as Hne by discriminate.
  split; [exact Hne|].
  exact (proj1 (debug_words_are_independent (module_init None) (Some "foo") None Hne)).
Defined.

Lemma fold_insert_words (ws : list string) (w : string) :
  forall vars : gmap string string,
    is_Some (List.fold_left (fun vars v => <[v := v]> vars) ws vars !! w)
    <-> In w ws \/ is_Some (vars !! w).
Proof.
  induction ws as [|x ws IH]; intros vars; simpl; [tauto|].
  rewrite IH. destruct (decide (x = w)) as [->|Hne].
  - rewrite lookup_insert_eq. split; [intros _; now left; left|eauto].
  - rewrite lookup_insert_ne by exact Hne. tauto.
Qed.

Lemma pieces_no_space (a : ascii) (s w : string) :
  PyWords.is_space a = true -> In w (PyWords.pieces s) -> Py.contains a w = false.
Proof.
  intros Ha. revert w. induction s as [|x s IH]; intros w Hw.
  - simpl in Hw. destruct Hw as [<-|[]]. reflexivity.
  - simpl in Hw. destruct (PyWords.is_space x) eqn:Hx.
    + destruct Hw as [<-|Hw]; [reflexivity | now apply IH].
    + destruct (PyWords.pieces s) as [|w0 ws] eqn:Hp.
      * destruct Hw as [<-|[]]. simpl.
        destruct (Ascii.eqb_spec x a) as [->|]; [congruence | reflexivity].
      * destruct Hw as [<-|Hw].
        -- simpl. rewrite (IH w0 (or_introl eq_refl)).
           destruct (Ascii.eqb_spec x a) as [->|]; [congruence | reflexivity].
        -- apply IH. now right.
Qed.

(** X16: the words taken from the environment.  After the import,
    [Debug(w)] is true exactly when DEBUG is set to a non-empty string and
    [w] is the marker [" "] (the bare [Debug()]) or one of the words of
    DEBUG between white space.  A word enabled this way is never empty and
    holds no white space: with DEBUG set to [foo foobar], [Debug("foo")] is
    true and [Debug("bar")], [Debug("foo foobar")] and [Debug("")] are not. *)
Theorem debug_words_from_environment :
  (forall (env : option string) (w : string),
     fst (Debug (Some w) (module_init env)) = Val true
     <-> exists s : string,
           env = Some s /\ s <> ""
           /\ (w = " " \/ In w (PyWords.split_ws s)))
  /\ (forall (s w : string) (a : ascii),
        In w (PyWords.split_ws s) ->
        w <> "" /\ (PyWords.is_space a = true -> Py.contains a w = false)).
Proof.
  split.
  - intros env w. rewrite Debug_result. cbn [fst].
    assert (forall b : bool, Val b = Val true <-> b = true) as Hval
      by (intros b; split; [intros [= ->] | intros ->]; reflexivity).
    rewrite Hval, bool_decide_eq_true. unfold module_init, getenv_flag.
    destruct env as [s|]; simpl.
    + destruct (String.eqb_spec s "") as [->|Hs]; simpl.
      * rewrite lookup_empty. split; [intros [? ?]; discriminate|].
        intros (s & [= <-] & Hs & _). congruence.
      * rewrite fold_insert_words. split.
        -- intros [Hin|Hsp].
           ++ exists s. auto.
           ++ exists s. split; [reflexivity|]. split; [exact Hs|]. left.
              destruct (decide (" " = w)) as [<-|Hne]; [reflexivity|].
              rewrite lookup_insert_ne, lookup_empty in Hsp by exact Hne.
              destruct Hsp as [? ?]. discriminate.
        -- intros (s' & [= <-] & _ & [->|Hin]); [right|now left].
           rewrite lookup_insert_eq. eauto.
    + rewrite lookup_empty. split; [intros [? ?]; discriminate|].
      intros (s & Hs & _). discriminate.
  - intros s w a Hin. unfold PyWords.split_ws in Hin.
    apply filter_In in Hin as [Hin Hne]. split.
    + apply negb_true_iff, String.eqb_neq in Hne. exact Hne.
    + intros Ha. exact (pieces_no_space a s w Ha Hin).
Qed.

Lemma debug_words_from_environment_witness :
  In "foobar" (PyWords.split_ws "foo foobar")
  /\ "foobar" <> ""
  /\ fst (Debug (Some "foobar") (module_init (Some "foo foobar"))) = Val true.
Proof.
  assert (In "foobar" (PyWords.split_ws "foo foobar")) as Hin
    by (right; left; reflexivity).
  split; [exact Hin|].
  split; [exact (proj1 (proj2 debug_words_from_environment "foo foobar" "foobar" " "%char
                          Hin))|].
  apply (proj1 debug_words_from_environment (Some "foo foobar") "foobar").
  exists "foo foobar". split; [reflexivity|]. split; [discriminate|]. right. exact Hin.
Defined.

End DebugState.

(** ** DebugMessage *)

Section Messages.

Import debugging_message.

Lemma levels_known (level : string) (l : levelname) :
  levels level = Some l -> level = levelname_string l.
Proof.
  unfold levels.
  repeat match goal with
         | |- context [String.eqb level ?s] =>
             destruct (String.eqb_spec level s) as [->|_];
             [intros H; injection H as <-; reflexivity|]
         end.
  intros H. discriminate H.
Qed.

Lemma DebugMessage_unfold (fuel : nat) (here caller : frame_info) (msg : string)
    (level : option string) :
  DebugMessage (S fuel) here caller msg level =
  try_except
    (f <- levels_item (level_arg level) ;;
     log f (position_message caller msg))
    (DebugMessage fuel here here
       ("DebugMessage() called with unknown level: " +:+ level_arg level) None ;;;
     log ERROR (position_message caller msg)).
Proof. reflexivity. Qed.

(** X17: [DebugMessage] always returns, with one unit of fuel for a known
    level and two for any level.  With one of the five level names it
    writes one line, at that level, with the base name of the caller's
    file, its line number on at least four columns, and the message.  With
    any other level it writes two lines: first, at level DEBUG and from its
    own position in debugging.py, the complaint about the unknown level,
    then the message at level ERROR from the caller's position. *)
Theorem DebugMessage_levels :
  forall (here caller : frame_info) (msg : string) (level : option string)
         (out : list string) (fuel : nat),
    (forall l : levelname,
       levels (level_arg level) = Some l ->
       DebugMessage (1 + fuel) here caller msg level out =
         (Val tt, (out ++ [format_record l (position_message caller msg)])%list))
    /\ (levels (level_arg level) = None ->
        DebugMessage (2 + fuel) here caller msg level out =
          (Val tt,
           (out ++ [format_record DEBUG
                      (position_message here
                         ("DebugMessage() called with unknown level: "
                          +:+ level_arg level));
                    format_record ERROR (position_message caller msg)])%list)).
Proof.
  intros here caller msg level out fuel.
  assert (forall (f : nat) (c : frame_info) (m : string) (lv : option string)
                 (o : list string) (l : levelname),
            levels (level_arg lv) = Some l ->
            DebugMessage (S f) here c m lv o =
            (Val tt, (o ++ [format_record l (position_message c m)])%list)) as Hknown.
  { intros f c m lv o l Hl. simpl.
    unfold try_except, bnd, levels_item, log, get, put, ret. rewrite Hl. reflexivity. }
  split.
  - intros l Hl. exact (Hknown fuel caller msg level out l Hl).
  - intros Hl. change (2 + fuel) with (S (S fuel)).
    rewrite DebugMessage_unfold.
    unfold try_except, bnd, levels_item, raise. rewrite Hl.
    rewrite (Hknown fuel here _ None out DEBUG eq_refl).
    unfold log, bnd, get, put. simpl. rewrite <- app_assoc. reflexivity.
Qed.

Lemma DebugMessage_levels_witness :
  levels (level_arg (Some "LOUD")) = None
  /\ DebugMessage 2 {| filename := "/usr/lib/adpytools/debugging.py"; lineno := 197 |}
       {| filename := "/home/me/app.py"; lineno := 12 |} "hello" (Some "LOUD") [] =
     (Val tt,
      ["DEBUG    debugging.py -  197: DebugMessage() called with unknown level: LOUD";
       "ERROR    app.py -   12: hello"]).
Proof.
  split; [reflexivity|].
  exact (proj2 (DebugMessage_levels
                  {| filename := "/usr/lib/adpytools/debugging.py"; lineno := 197 |}
                  {| filename := "/home/me/app.py"; lineno := 12 |} "hello" (Some "LOUD")
                  [] 0) eq_refl).
Defined.

End Messages.

(** ** Urls on which [call] returns *)

Section Returns.

Import microhttpd.



(** X19: the empty url and a url that is a question mark followed by a
    text without a question mark have an empty working path: the loop body
    is not entered, no path of the table is looked up, and [call] calls the
    binding under ["default"] (with [match=""], [ext=""], and [rest] the
    whole url, or [data] for a PUT) or returns the not-found dictionary. *)
Theorem empty_working_path_goes_to_default :
  forall (self : Dispatch) (url type data : string) (fuel : nat),
    url = "" \/ (exists q : string, url = "?" +:+ q /\ Py.contains "?" q = false) ->
    working_path url = ""
    /\ call_select (S fuel) url type data self =
         (Val match bindings self !! "default" with
              | Some b =>
                  Some {| inv_method := method b; inv_type := type; inv_match := "";
                          inv_ext := ""; inv_note := note b;
                          inv_rest := if String.eqb type "PUT" then data else url |}
              | None => None
              end, self).
Proof.
  intros self url type data fuel H.
  assert (working_path url = "") as Hw by (apply working_path_empty; exact H).
  split; [exact Hw|].
  rewrite call_select_loop, Hw, call_loop_empty. unfold fallback.
  destruct (bindings self !! "default"); [|reflexivity].
  rewrite rest_for_PUT. reflexivity.
Qed.

Lemma empty_working_path_goes_to_default_witness :
  ("?message=hello" = ""
   \/ exists q : string, "?message=hello" = "?" +:+ q /\ Py.contains "?" q = false)
  /\ call_select 1 "?message=hello" "GET" "" (table_of ["/"; "default"]) =
       (Val (Some {| inv_method := echo; inv_type := "GET"; inv_match := "";
                     inv_ext := ""; inv_note := Some "index";
                     inv_rest := "?message=hello" |}), table_of ["/"; "default"]).
Proof.
  assert ("?message=hello" = ""
          \/ exists q : string, "?message=hello" = "?" +:+ q /\ Py.contains "?" q = false)
    as H by (right; exists "message=hello"; split; reflexivity).
  split; [exact H|].
  exact (proj2 (empty_working_path_goes_to_default (table_of ["/"; "default"])
                  "?message=hello" "GET" "" 0 H)).
Defined.

End Returns.

(** ** GET: answer or hand over *)

Section Get.

Import microhttpd.

Variable responses : Z -> option string.

(** X20: a GET is handed to the static file server exactly on the
    dispatcher's own not-found status.  When the result's status is the
    object [httplib.NOT_FOUND], [do_GET] writes nothing itself and calls
    [SimpleHTTPRequestHandler.do_GET]; on any other status with a reason
    phrase (also a 404 that is another int object, as a handler's own
    literal is) it writes the complete response and the static file server
    is not called. *)
Theorem do_GET_answers_or_delegates :
  forall (fuel : nat) (req : request) (st : server_state) (resp : response),
    call fuel (path req) "GET" "" (dispatch st) = (Val resp, dispatch st) ->
    (resp_c resp = Some NOT_FOUND ->
     do_GET responses fuel req st =
       (Val tt, {| dispatch := dispatch st; serial := (serial st + 1)%Z;
                   wire := (wire st ++ [SimpleHTTPRequestHandler_do_GET])%list |}))
    /\ (forall (z : Z) (msg : string),
          default (Int OK) (resp_c resp) = Int z ->
          responses z = Some msg ->
          do_GET responses fuel req st =
            (Val tt, {| dispatch := dispatch st; serial := (serial st + 1)%Z;
                        wire := (wire st ++ response_events z msg resp)%list |})).
Proof.
  intros fuel req st resp Hcall.
  pose proof (do_all_from_call responses fuel req "GET" st resp [] Hcall eq_refl) as Hall.
  cbv zeta in Hall. rewrite app_nil_r in Hall. unfold do_GET, bnd. split.
  - intros Hc. rewrite Hall, Hc. reflexivity.
  - intros z msg Hc Hz. rewrite Hall, Hc, Hz. reflexivity.
Qed.

End Get.

Lemma do_GET_answers_or_delegates_witness :
  microhttpd.do_GET (fun z : Z => if Z.eqb z 404 then Some "Not Found" else None) 1
    {| microhttpd.path := "/gone"; microhttpd.put_data := "" |}
    {| microhttpd.dispatch :=
         snd (microhttpd.bind "/gone"
                (fun _ _ _ _ _ => {| microhttpd.resp_r := None;
                                     microhttpd.resp_c := Some (microhttpd.Int 404);
                                     microhttpd.resp_h := None |})
                None microhttpd.__init__);
       microhttpd.serial := 0; microhttpd.wire := [] |} =
  (Val tt,
   {| microhttpd.dispatch :=
        snd (microhttpd.bind "/gone"
               (fun _ _ _ _ _ => {| microhttpd.resp_r := None;
                                    microhttpd.resp_c := Some (microhttpd.Int 404);
                                    microhttpd.resp_h := None |})
               None microhttpd.__init__);
      microhttpd.serial := 1;
      microhttpd.wire :=
        [microhttpd.send_error 404 "Not Found";
         microhttpd.send_header "Content-Length" (microhttpd.HInt 0);
         microhttpd.end_headers;
         microhttpd.connection_close] |}).
Proof.
  exact (proj2 (do_GET_answers_or_delegates _ 1
                  {| microhttpd.path := "/gone"; microhttpd.put_data := "" |}
                  {| microhttpd.dispatch :=
                       snd (microhttpd.bind "/gone"
                              (fun _ _ _ _ _ =>
                                 {| microhttpd.resp_r := None;
                                    microhttpd.resp_c := Some (microhttpd.Int 404);
                                    microhttpd.resp_h := None |})
                              None microhttpd.__init__);
                     microhttpd.serial := 0; microhttpd.wire := [] |}
                  {| microhttpd.resp_r := None;
                     microhttpd.resp_c := Some (microhttpd.Int 404);
                     microhttpd.resp_h := None |}
                  eq_refl) 404%Z "Not Found" eq_refl eq_refl).
Defined.
